(** * hexrd.xrdutil.phutil: pinhole-camera corrections to the Bragg angle

    A shallow embedding of [src/hexrd/xrdutil/phutil.py]: the two point
    evaluators ([tth_corr_sample_layer], [tth_corr_pinhole]), the two map
    evaluators ([tth_corr_map_sample_layer], [tth_corr_map_pinhole]) and the
    two parameter holders ([SampleLayerDistortion], [PinholeDistortion]).

    The arithmetic of the module is kept behind the interface [Num], so that
    one embedding is read both over IEEE-754 binary64 (what numpy computes
    with) and over the real numbers (the geometry the formulas describe). *)

From Stdlib Require Import ZArith Reals Lra Floats.
From stdpp Require Import base option list gmap strings.

Set Default Proof Using "Type".

(** ** Numbers *)

(** The scalar operations the module uses: [+ - * /], unary minus, the
    literals [0], [1] and [0.5], and numpy's [cos], [sin] and [arctan]. *)
Class Num (F : Type) := {
  fzero : F;
  fone : F;
  fhalf : F;
  fadd : F -> F -> F;
  fsub : F -> F -> F;
  fmul : F -> F -> F;
  fdiv : F -> F -> F;
  fopp : F -> F;
  np_cos : F -> F;
  np_sin : F -> F;
  np_arctan : F -> F
}.

Declare Scope num_scope.
Delimit Scope num_scope with num.
Infix "+" := fadd : num_scope.
Infix "-" := fsub : num_scope.
Infix "*" := fmul : num_scope.
Infix "/" := fdiv : num_scope.
Notation "- x" := (fopp x) : num_scope.

(** Identities that hold in IEEE-754 arithmetic as well as over the reals. *)
Class NumLaws (F : Type) `{Num F} : Prop := {
  fmul_comm : forall x y : F, (x * y)%num = (y * x)%num;
  fsub_add_opp : forall x y : F, (x - y)%num = (x + - y)%num
}.

(** Identities of exact arithmetic; they fail on IEEE-754 infinities, NaN
    and signed zeros. *)
Class ExactLaws (F : Type) `{Num F} : Prop := {
  fmul_opp_zero : forall x : F, (- fzero * x)%num = fzero;
  fsub_diag : forall x : F, (x - x)%num = fzero
}.

(** The real numbers. *)
#[export] Instance R_Num : Num R := {|
  fzero := 0%R;
  fone := 1%R;
  fhalf := (1 / 2)%R;
  fadd := Rplus;
  fsub := Rminus;
  fmul := Rmult;
  fdiv := Rdiv;
  fopp := Ropp;
  np_cos := cos;
  np_sin := sin;
  np_arctan := atan
|}.

(** The C library functions numpy calls on binary64 values. *)
Record Libm := {
  libm_cos : float -> float;
  libm_sin : float -> float;
  libm_atan : float -> float
}.

(** IEEE-754 binary64 with a given C library. *)
Definition float_Num (m : Libm) : Num float := {|
  fzero := 0%float;
  fone := 1%float;
  fhalf := 0.5%float;
  fadd := PrimFloat.add;
  fsub := PrimFloat.sub;
  fmul := PrimFloat.mul;
  fdiv := PrimFloat.div;
  fopp := PrimFloat.opp;
  np_cos := libm_cos m;
  np_sin := libm_sin m;
  np_arctan := libm_atan m
|}.

(** ** Arrays *)

(** A length-3 axis: a 3-vector is [vec3 F], the 3x3 matrix [rmat] is a
    [vec3] of rows, a 3xN array is a [vec3] of rows of length N and an Nx3
    array is a list of [vec3 F]. *)
Record vec3 (A : Type) := V3 { vx : A; vy : A; vz : A }.
Arguments V3 {A} _ _ _.
Arguments vx {A} _.
Arguments vy {A} _.
Arguments vz {A} _.

Definition vec3_map {A B} (f : A -> B) (v : vec3 A) : vec3 B :=
  V3 (f (vx v)) (f (vy v)) (f (vz v)).

(** Python exceptions raised inside the module. *)
Inductive exn :=
  AssertionError | TypeError | ValueError | OverflowError | KeyError.

Inductive result (A : Type) :=
  | Ok (a : A)
  | Raise (e : exn).
Arguments Ok {A} _.
Arguments Raise {A} _.

#[export] Instance result_ret : MRet result := fun A a => Ok a.
#[export] Instance result_bind : MBind result := fun A B k r =>
  match r with
  | Ok a => k a
  | Raise e => Raise e
  end.

(** a 3x3 matrix as its three rows; a 2-d array as the list of its rows *)
Definition mat3 (F : Type) := vec3 (vec3 F).
Definition grid (F : Type) := list (list F).

Section Arrays.
Context {F : Type} `{Num F}.
Local Open Scope num_scope.

(** [ct.identity_3x3], [ct.zeros_3] and [ct.beam_vec] ([0, 0, -1]) *)
Definition identity_3x3 : mat3 F :=
  V3 (V3 fone fzero fzero) (V3 fzero fone fzero) (V3 fzero fzero fone).
Definition zeros_3 : vec3 F := V3 fzero fzero fzero.
Definition beam_vec : vec3 F := V3 fzero fzero (- fone).

(** [m.T] of a 3x3 matrix *)
Definition transpose3 (m : mat3 F) : mat3 F :=
  V3 (V3 (vx (vx m)) (vx (vy m)) (vx (vz m)))
     (V3 (vy (vx m)) (vy (vy m)) (vy (vz m)))
     (V3 (vz (vx m)) (vz (vy m)) (vz (vz m))).

(** column [k] of a 3x3 matrix *)
Definition col3 (k : vec3 F -> F) (m : mat3 F) : vec3 F :=
  V3 (k (vx m)) (k (vy m)) (k (vz m)).

(** the sum of products along the contracted axis, in index order *)
Definition dot3 (u v : vec3 F) : F :=
  vx u * vx v + vy u * vy v + vz u * vz v.

(** [np.dot(a, m)] for an Nx3 array [a] and a 3x3 matrix [m] *)
Definition dot_rows (a : list (vec3 F)) (m : mat3 F) : list (vec3 F) :=
  (fun r => V3 (dot3 r (col3 vx m)) (dot3 r (col3 vy m)) (dot3 r (col3 vz m)))
    <$> a.

(** [a + t] for an Nx3 array [a] and a 3-vector [t] (broadcast over rows) *)
Definition add_row (a : list (vec3 F)) (t : vec3 F) : list (vec3 F) :=
  (fun r => V3 (vx r + vx t) (vy r + vy t) (vz r + vz t)) <$> a.

(** one row of [np.dot(m, c)] for a 3x3 matrix [m] and a 3xN array [c] *)
Definition dot_cols_row (r : vec3 F) (c : vec3 (list F)) : list F :=
  zip_with fadd
    (zip_with fadd (fmul (vx r) <$> vx c) (fmul (vy r) <$> vy c))
    (fmul (vz r) <$> vz c).

(** [np.dot(m, c)] for a 3x3 matrix [m] and a 3xN array [c] *)
Definition dot_cols (m : mat3 F) (c : vec3 (list F)) : vec3 (list F) :=
  vec3_map (fun r => dot_cols_row r c) m.

(** [c + t.reshape(3, 1)] for a 3xN array [c] (broadcast over columns) *)
Definition add_col (c : vec3 (list F)) (t : vec3 F) : vec3 (list F) :=
  V3 ((fun a => a + vx t) <$> vx c)
     ((fun a => a + vy t) <$> vy c)
     ((fun a => a + vz t) <$> vz c).

(** [c.T] for a 3xN array [c] *)
Definition transpose3N (c : vec3 (list F)) : list (vec3 F) :=
  zip_with (fun xy z => V3 xy.1 xy.2 z) (zip (vx c) (vy c)) (vz c).

(** [np.hstack([xy_pts, np.zeros((npts, 1))])] *)
Definition hstack_zeros (xy_pts : list (F * F)) : list (vec3 F) :=
  zip_with (fun p z => V3 p.1 p.2 z) xy_pts (replicate (length xy_pts) fzero).

(** [np.vstack([a, b]).T] for two 1-d arrays of one length: an Nx2 array *)
Definition vstack2_T (a b : list F) : list (list F) :=
  zip_with (fun x y => [x; y]) a b.

(** [a[:, k]] of a 2-d array given as a list of rows *)
Definition column (k : nat) (a : list (list F)) : list F :=
  (fun row => default fzero (row !! k)) <$> a.

(** [a.flatten()] of a 2-d array *)
Definition flatten (g : grid F) : list F := concat g.

Definition has_shape (s : nat * nat) (g : grid F) : Prop :=
  length g = s.1 /\ Forall (fun row => length row = s.2) g.

(** splits a flat list into [n] rows of [c] entries each *)
Fixpoint chunks (n c : nat) (l : list F) : grid F :=
  match n with
  | O => []
  | S n' => take c l :: chunks n' c (drop c l)
  end.

(** [a.reshape(shape)] of a 1-d array: numpy raises [ValueError] when the
    sizes differ *)
Definition reshape (s : nat * nat) (l : list F) : result (grid F) :=
  if decide (length l = (s.1 * s.2)%nat) then Ok (chunks s.1 s.2 l)
  else Raise ValueError.
End Arrays.

(** ** Detectors, instruments and the geometry primitives

    [hexrd.instrument] and [hexrd.transforms.xfcapi] are imported by the
    module and not part of it.  Their data is modelled by records; what they
    compute is left to the interface [Geom]. *)

(** A planar detector: orientation [rmat] and position [tvec] in the lab
    frame, beam and azimuth reference vectors, the panel's internal
    distortion (if any), the array shape [(rows, cols)] and the pixel-centre
    coordinate grids [(py, px)] returned by the property [pixel_coords]. *)
Record Detector (F : Type) := {
  rmat : mat3 F;
  tvec : vec3 F;
  bvec : vec3 F;
  evec : vec3 F;
  distortion : option (F * F -> F * F);
  shape : nat * nat;
  pixel_coords : grid F * grid F
}.
Arguments rmat {F} _.
Arguments tvec {F} _.
Arguments bvec {F} _.
Arguments evec {F} _.
Arguments distortion {F} _.
Arguments shape {F} _.
Arguments pixel_coords {F} _.

(** [d.bvec = v] on a detector object *)
Definition set_bvec {F} (v : vec3 F) (d : Detector F) : Detector F :=
  {| rmat := rmat d; tvec := tvec d; bvec := v; evec := evec d;
     distortion := distortion d; shape := shape d;
     pixel_coords := pixel_coords d |}.

(** An instrument: the dict [detectors], the shared beam and azimuth
    reference vectors and the source-to-pinhole distance. *)
Record Instrument (F : Type) := {
  detectors : gmap string (Detector F);
  beam_vector : vec3 F;
  eta_vector : vec3 F;
  source_distance : F
}.
Arguments detectors {F} _.
Arguments beam_vector {F} _.
Arguments eta_vector {F} _.
Arguments source_distance {F} _.

(** Modelled from the spec: the setter of [HEDMInstrument.beam_vector]
    (hexrd.instrument, not under src/).  The instrument is a keyed collection
    of detectors sharing one beam vector, and the copy with the canonical
    beam is what gives the reference azimuths per detector, so the assignment
    reaches every detector of the instrument. *)
Definition set_beam_vector {F} (v : vec3 F) (i : Instrument F) : Instrument F :=
  {| detectors := set_bvec v <$> detectors i; beam_vector := v;
     eta_vector := eta_vector i; source_distance := source_distance i |}.

(** The collaborators, one point at a time:
    - [unit_vec]: one row of [xfcapi.unitRowVector];
    - [cart_to_angles_pt d (x, y)]: one row [(tth, eta)] of
      [d.cart_to_angles(xy, rmat_s=None, tvec_s=None, tvec_c=None,
      apply_distortion=True)], the only way the module calls it;
    - [detectorXYToGvec_pt xy rmat_d rmat_s tvec_d tvec_s tvec_c beamVec etaVec]:
      the angles [(tth, eta)] of [xfcapi.detectorXYToGvec] for one point. *)
Class Geom (F : Type) := {
  unit_vec : vec3 F -> vec3 F;
  cart_to_angles_pt : Detector F -> F * F -> F * F;
  detectorXYToGvec_pt :
    F * F -> mat3 F -> mat3 F -> vec3 F -> vec3 F -> vec3 F ->
    vec3 F -> vec3 F -> F * F
}.

Section Evaluators.
Context {F : Type} `{Num F} `{Geom F}.
Local Open Scope num_scope.

Definition unitRowVector (a : list (vec3 F)) : list (vec3 F) :=
  unit_vec <$> a.

Definition cart_to_angles (d : Detector F) (xy_pts : list (F * F))
  : list (F * F) :=
  cart_to_angles_pt d <$> xy_pts.

(** Modelled from the spec: [PlanarDetector.pixel_angles] (hexrd.instrument,
    not under src/), the per-pixel angle grids matching the per-pixel
    coordinate grids: the detector's own angles of each pixel centre
    [(x, y) = (px[i][j], py[i][j])], as the pair [(tth, eta)] of grids. *)
Definition pixel_angles (d : Detector F) : grid F * grid F :=
  let '(py, px) := pixel_coords d in
  (zip_with (zip_with (fun y x => (cart_to_angles_pt d (x, y)).1)) py px,
   zip_with (zip_with (fun y x => (cart_to_angles_pt d (x, y)).2)) py px).

(** *** The sample-layer model, point evaluation *)

(** [zs = layer_standoff + 0.5*layer_thickness + 0.5*pinhole_thickness] *)
Definition layer_zs (layer_standoff layer_thickness pinhole_thickness : F) : F :=
  layer_standoff + fhalf * layer_thickness + fhalf * pinhole_thickness.

(** [cos_beta] of lines 164-168 *)
Definition sample_layer_cos_beta (detector : Detector F)
    (xy_pts : list (F * F)) : list F :=
  let crds := hstack_zeros xy_pts in
  let dhats :=
    unitRowVector
      (add_row (dot_rows crds (transpose3 (rmat detector))) (tvec detector)) in
  (fun d => - vz d) <$> dhats.

(** [source_distance*cos_beta/zs - cos_tthn] of line 171 *)
Definition sample_layer_denominator (detector : Detector F)
    (xy_pts : list (F * F)) (zs source_distance : F) : list F :=
  let ref_tth := fst <$> cart_to_angles detector xy_pts in
  let cos_beta := sample_layer_cos_beta detector xy_pts in
  let cos_tthn := np_cos <$> ref_tth in
  zip_with fsub ((fun c => source_distance * c / zs) <$> cos_beta) cos_tthn.

(** the array [tth_corr] of line 171 *)
Definition sample_layer_tth_corr (detector : Detector F)
    (xy_pts : list (F * F))
    (layer_standoff layer_thickness pinhole_thickness source_distance : F)
  : list F :=
  let zs := layer_zs layer_standoff layer_thickness pinhole_thickness in
  let ref_tth := fst <$> cart_to_angles detector xy_pts in
  let sin_tthn := np_sin <$> ref_tth in
  np_arctan <$>
    zip_with fdiv sin_tthn
      (sample_layer_denominator detector xy_pts zs source_distance).

Definition tth_corr_sample_layer (detector : Detector F)
    (xy_pts : list (F * F))
    (layer_standoff layer_thickness pinhole_thickness source_distance : F)
    (return_nominal : bool) : list (list F) :=
  let ref_angs := cart_to_angles detector xy_pts in
  let ref_tth := fst <$> ref_angs in
  let tth_corr :=
    sample_layer_tth_corr detector xy_pts layer_standoff layer_thickness
      pinhole_thickness source_distance in
  if return_nominal
  then vstack2_T (zip_with fsub ref_tth tth_corr) (snd <$> ref_angs)
  else vstack2_T (fopp <$> tth_corr) (snd <$> ref_angs).

(** *** The loop over the detectors of an instrument

    [tth_corr = dict.fromkeys(instrument.detectors)] holds [None] under
    every key; the loop stores one array per key, in the order of
    [instrument.detectors.items()]. *)
Fixpoint for_detectors (body : string -> Detector F -> result (grid F))
    (items : list (string * Detector F))
    (tth_corr : gmap string (option (grid F)))
  : result (gmap string (option (grid F))) :=
  match items with
  | [] => Ok tth_corr
  | (det_key, det) :: rest =>
      v ← body det_key det;
      for_detectors body rest (<[det_key := Some v]> tth_corr)
  end.

Definition fromkeys (ds : gmap string (Detector F))
  : gmap string (option (grid F)) :=
  (fun _ => None) <$> ds.

(** *** The sample-layer model, map evaluation *)

(** the loop body of lines 214-225 *)
Definition map_sample_layer_body (instrument : Instrument F) (zs : F)
    (det : Detector F) : result (grid F) :=
  let ref_ptth := (pixel_angles det).1 in
  let '(py, px) := pixel_coords det in
  let crds :=
    V3 (flatten px) (flatten py) (replicate (length (flatten px)) fzero) in
  let dhats :=
    unitRowVector
      (transpose3N (add_col (dot_cols (rmat det) crds) (tvec det))) in
  let cos_beta := (fun d => - vz d) <$> dhats in
  let cos_tthn := np_cos <$> flatten ref_ptth in
  let sin_tthn := np_sin <$> flatten ref_ptth in
  reshape (shape det)
    (np_arctan <$>
      zip_with fdiv sin_tthn
        (zip_with fsub
          ((fun c => source_distance instrument * c / zs) <$> cos_beta)
          cos_tthn)).

Definition tth_corr_map_sample_layer (instrument : Instrument F)
    (layer_standoff layer_thickness pinhole_thickness : F)
  : result (gmap string (option (grid F))) :=
  let zs := layer_zs layer_standoff layer_thickness pinhole_thickness in
  let tth_corr := fromkeys (detectors instrument) in
  for_detectors (fun _ det => map_sample_layer_body instrument zs det)
    (map_to_list (detectors instrument)) tth_corr.

(** *** The pinhole model *)

(** [enumerate(l)] *)
Definition enumerate {A} (l : list A) : list (nat * A) :=
  zip (seq 0 (length l)) l.

(** the loop of lines 279-291 and 337-349: starting from
    [np.zeros(n)], entry [i] receives the 2-theta of the ray from the
    displaced origin to point [i] *)
Definition pinhole_loop (rmat_d : mat3 F) (tvec_d bvec_d evec_d : vec3 F)
    (pinhole_thickness pinhole_radius : F)
    (n : nat) (pts : list (F * F)) (etas : list F) : list F :=
  foldl
    (fun pin_tth '(i, (pxy, reta)) =>
       let origin :=
         V3 (- pinhole_radius * np_cos reta)
            (- pinhole_radius * np_sin reta)
            (- pinhole_radius * (fhalf * pinhole_thickness)) in
       let angs :=
         detectorXYToGvec_pt pxy rmat_d identity_3x3 tvec_d zeros_3 origin
           bvec_d evec_d in
       <[i := angs.1]> pin_tth)
    (replicate n fzero)
    (enumerate (zip pts etas)).

(** the array [tth_corr] of line 292 *)
Definition pinhole_tth_corr (detector : Detector F) (xy_pts : list (F * F))
    (pinhole_thickness pinhole_radius : F) : list F :=
  let npts := length xy_pts in
  let cp_det := set_bvec beam_vec detector in
  let ref_angs := cart_to_angles cp_det xy_pts in
  let ref_eta := snd <$> ref_angs in
  let nom_angs := cart_to_angles detector xy_pts in
  let nom_tth := fst <$> nom_angs in
  let pin_tth :=
    pinhole_loop (rmat detector) (tvec detector) (bvec detector)
      (evec detector) pinhole_thickness pinhole_radius npts xy_pts ref_eta in
  zip_with fsub pin_tth nom_tth.

Definition tth_corr_pinhole (detector : Detector F) (xy_pts : list (F * F))
    (pinhole_thickness pinhole_radius : F) (return_nominal : bool)
  : list (list F) :=
  let nom_angs := cart_to_angles detector xy_pts in
  let nom_tth := fst <$> nom_angs in
  let tth_corr :=
    pinhole_tth_corr detector xy_pts pinhole_thickness pinhole_radius in
  if return_nominal
  then vstack2_T (zip_with fsub nom_tth tth_corr) (snd <$> nom_angs)
  else vstack2_T (fopp <$> tth_corr) (snd <$> nom_angs).

(** the loop body of lines 328-350; [cp_instr.detectors[det_key]] raises
    [KeyError] on a missing key *)
Definition map_pinhole_body (instrument cp_instr : Instrument F)
    (pinhole_thickness pinhole_radius : F)
    (det_key : string) (det : Detector F) : result (grid F) :=
  cp_det ← match detectors cp_instr !! det_key with
           | Some d => Ok d
           | None => Raise KeyError
           end;
  let ref_peta := (pixel_angles cp_det).2 in
  let nom_ptth := (pixel_angles det).1 in
  let '(dpy, dpx) := pixel_coords det in
  let pcrds := zip (flatten dpx) (flatten dpy) in
  let ref_peta := flatten ref_peta in
  let new_ptth :=
    pinhole_loop (rmat det) (tvec det) (beam_vector instrument)
      (eta_vector instrument) pinhole_thickness pinhole_radius
      (length ref_peta) pcrds ref_peta in
  g ← reshape (shape det) new_ptth;
  Ok (zip_with (zip_with fsub) g nom_ptth).

Definition tth_corr_map_pinhole (instrument : Instrument F)
    (pinhole_thickness pinhole_radius : F)
  : result (gmap string (option (grid F))) :=
  let cp_instr := set_beam_vector beam_vec instrument in
  let tth_corr := fromkeys (detectors instrument) in
  for_detectors
    (map_pinhole_body instrument cp_instr pinhole_thickness pinhole_radius)
    (map_to_list (detectors instrument)) tth_corr.
End Evaluators.

(** ** The parameter holders *)

(** The Python values that can be handed to a constructor or a setter:
    [None], [bool], [int], [float], [str], an instance of [PlanarDetector]
    (the only member of [detector_classes]) and an instance of any other
    class, which has no [__float__]. *)
Inductive PyVal (F : Type) :=
  | PyNone
  | PyBool (b : bool)
  | PyInt (z : Z)
  | PyFloat (f : F)
  | PyStr (s : string)
  | PyDetector (d : Detector F)
  | PyObject (cls : string).
Arguments PyNone {F}.
Arguments PyBool {F} _.
Arguments PyInt {F} _.
Arguments PyFloat {F} _.
Arguments PyStr {F} _.
Arguments PyDetector {F} _.
Arguments PyObject {F} _.

(** What Python's built-in [float] needs from the runtime: the conversion of
    an [int] (none when it is too large for a float) and of a string (none
    when it is not a float literal). *)
Class PyRuntime (F : Type) := {
  float_of_int : Z -> option F;
  float_of_str : string -> option F
}.

(** A method body: it runs on the object's state, returns or raises, and
    leaves a state behind. *)
Definition Method (S A : Type) : Type := S -> result A * S.

#[export] Instance Method_ret {S} : MRet (Method S) := fun A a s => (Ok a, s).
#[export] Instance Method_bind {S} : MBind (Method S) := fun A B k m s =>
  match m s with
  | (Ok a, s') => k a s'
  | (Raise e, s') => (Raise e, s')
  end.

(** [assert b] *)
Definition py_assert {S} (b : bool) : Method S unit :=
  fun s => (if b then Ok tt else Raise AssertionError, s).

(** an expression that may raise and does not touch the object *)
Definition py_eval {S A} (r : result A) : Method S A := fun s => (r, s).

(** an attribute assignment *)
Definition py_store {S} (f : S -> S) : Method S unit := fun s => (Ok tt, f s).

Section Builtins.
Context {F : Type} `{Num F} `{PyRuntime F}.

(** [isinstance(x, detector_classes)] *)
Definition isinstance_detector (x : PyVal F) : bool :=
  match x with
  | PyDetector _ => true
  | _ => false
  end.

(** [float(x)] *)
Definition py_float (x : PyVal F) : result F :=
  match x with
  | PyFloat f => Ok f
  | PyBool b => Ok (if b then fone else fzero)
  | PyInt z =>
      match float_of_int z with
      | Some f => Ok f
      | None => Raise OverflowError
      end
  | PyStr s =>
      match float_of_str s with
      | Some f => Ok f
      | None => Raise ValueError
      end
  | PyNone | PyDetector _ | PyObject _ => Raise TypeError
  end.
End Builtins.

Module SampleLayerDistortion.
Record t (F : Type) := {
  _detector : PyVal F;
  _standoff : PyVal F;
  _thickness : PyVal F;
  _ph_thickness : PyVal F;
  _source_dist : PyVal F
}.
Arguments _detector {F} _.
Arguments _standoff {F} _.
Arguments _thickness {F} _.
Arguments _ph_thickness {F} _.
Arguments _source_dist {F} _.

Section Class.
Context {F : Type} `{Num F} `{PyRuntime F}.

Definition __init__
    (detector layer_standoff layer_thickness pinhole_thickness
       source_distance : PyVal F) : result (t F) :=
  Ok {| _detector := detector; _standoff := layer_standoff;
        _thickness := layer_thickness; _ph_thickness := pinhole_thickness;
        _source_dist := source_distance |}.

Definition detector (self : t F) : PyVal F := _detector self.
Definition standoff (self : t F) : PyVal F := _standoff self.
Definition thickness (self : t F) : PyVal F := _thickness self.
Definition ph_thickness (self : t F) : PyVal F := _ph_thickness self.
Definition source_dist (self : t F) : PyVal F := _source_dist self.

Definition set_detector (x : PyVal F) : Method (t F) unit :=
  py_assert (isinstance_detector x);;
  py_store (fun self =>
    {| _detector := x; _standoff := _standoff self;
       _thickness := _thickness self; _ph_thickness := _ph_thickness self;
       _source_dist := _source_dist self |}).

Definition set_standoff (x : PyVal F) : Method (t F) unit :=
  v ← py_eval (py_float x);
  py_store (fun self =>
    {| _detector := _detector self; _standoff := PyFloat v;
       _thickness := _thickness self; _ph_thickness := _ph_thickness self;
       _source_dist := _source_dist self |}).

Definition set_thickness (x : PyVal F) : Method (t F) unit :=
  v ← py_eval (py_float x);
  py_store (fun self =>
    {| _detector := _detector self; _standoff := _standoff self;
       _thickness := PyFloat v; _ph_thickness := _ph_thickness self;
       _source_dist := _source_dist self |}).

Definition set_ph_thickness (x : PyVal F) : Method (t F) unit :=
  v ← py_eval (py_float x);
  py_store (fun self =>
    {| _detector := _detector self; _standoff := _standoff self;
       _thickness := _thickness self; _ph_thickness := PyFloat v;
       _source_dist := _source_dist self |}).

Definition set_source_dist (x : PyVal F) : Method (t F) unit :=
  v ← py_eval (py_float x);
  py_store (fun self =>
    {| _detector := _detector self; _standoff := _standoff self;
       _thickness := _thickness self; _ph_thickness := _ph_thickness self;
       _source_dist := PyFloat v |}).
End Class.

Section Apply.
Context {F : Type} `{Num F} `{Geom F}.

(** [tth_corr_sample_layer] as [apply] calls it, on the values the
    properties hold.  The evaluator is embedded for a detector and float
    parameters, the state the setters establish; what Python's duck typing
    does with other values is not embedded ([None]). *)
Definition call_tth_corr_sample_layer (detector : PyVal F)
    (xy_pts : list (F * F))
    (layer_standoff layer_thickness pinhole_thickness source_distance
       : PyVal F)
    (return_nominal : bool) : option (list (list F)) :=
  match detector, layer_standoff, layer_thickness, pinhole_thickness,
        source_distance with
  | PyDetector d, PyFloat s, PyFloat t, PyFloat p, PyFloat sd =>
      Some (tth_corr_sample_layer d xy_pts s t p sd return_nominal)
  | _, _, _, _, _ => None
  end.

Definition apply (self : t F) (xy_pts : list (F * F))
    (return_nominal : bool) : option (list (list F)) :=
  call_tth_corr_sample_layer (detector self) xy_pts
    (standoff self) (thickness self) (ph_thickness self) (source_dist self)
    return_nominal.
End Apply.
End SampleLayerDistortion.

Module PinholeDistortion.
Record t (F : Type) := {
  _detector : PyVal F;
  _ph_thickness : PyVal F;
  _ph_radius : PyVal F
}.
Arguments _detector {F} _.
Arguments _ph_thickness {F} _.
Arguments _ph_radius {F} _.

Section Class.
Context {F : Type} `{Num F} `{PyRuntime F}.

Definition __init__ (detector pinhole_thickness pinhole_radius : PyVal F)
  : result (t F) :=
  Ok {| _detector := detector; _ph_thickness := pinhole_thickness;
        _ph_radius := pinhole_radius |}.

Definition detector (self : t F) : PyVal F := _detector self.
Definition ph_thickness (self : t F) : PyVal F := _ph_thickness self.
Definition ph_radius (self : t F) : PyVal F := _ph_radius self.

Definition set_detector (x : PyVal F) : Method (t F) unit :=
  py_assert (isinstance_detector x);;
  py_store (fun self =>
    {| _detector := x; _ph_thickness := _ph_thickness self;
       _ph_radius := _ph_radius self |}).

Definition set_ph_thickness (x : PyVal F) : Method (t F) unit :=
  v ← py_eval (py_float x);
  py_store (fun self =>
    {| _detector := _detector self; _ph_thickness := PyFloat v;
       _ph_radius := _ph_radius self |}).

Definition set_ph_radius (x : PyVal F) : Method (t F) unit :=
  v ← py_eval (py_float x);
  py_store (fun self =>
    {| _detector := _detector self; _ph_thickness := _ph_thickness self;
       _ph_radius := PyFloat v |}).
End Class.

Section Apply.
Context {F : Type} `{Num F} `{Geom F}.

(** [tth_corr_pinhole] as [apply] calls it; embedded for a detector and
    float parameters, as for the sample-layer model. *)
Definition call_tth_corr_pinhole (detector : PyVal F)
    (xy_pts : list (F * F)) (pinhole_thickness pinhole_radius : PyVal F)
    (return_nominal : bool) : option (list (list F)) :=
  match detector, pinhole_thickness, pinhole_radius with
  | PyDetector d, PyFloat t, PyFloat r =>
      Some (tth_corr_pinhole d xy_pts t r return_nominal)
  | _, _, _ => None
  end.

Definition apply (self : t F) (xy_pts : list (F * F))
    (return_nominal : bool) : option (list (list F)) :=
  call_tth_corr_pinhole (detector self) xy_pts
    (ph_thickness self) (ph_radius self) return_nominal.
End Apply.
End PinholeDistortion.

Section SetterContract.
Context {F : Type} `{Num F} `{PyRuntime F}.

(** the contract of a float-coercing setter: [float(x)] is stored in the
    field, or what [float] raises is raised and the object is as it was *)
Definition coerced_store {S} (x : PyVal F) (store : F -> S -> S) (self : S)
  : result unit * S :=
  match py_float x with
  | Ok v => (Ok tt, store v self)
  | Raise e => (Raise e, self)
  end.
End SetterContract.

(** ** The formulas and contracts the properties are stated with *)

Section Formulas.
Context {F : Type} `{Num F} `{Geom F}.
Local Open Scope num_scope.

(** the detector-plane point [(x, y, 0)] taken to the lab frame by the
    detector's rotation and translation *)
Definition lab_point (d : Detector F) (p : F * F) : vec3 F :=
  let c := V3 p.1 p.2 fzero in
  V3 (dot3 (vx (rmat d)) c + vx (tvec d))
     (dot3 (vy (rmat d)) c + vy (tvec d))
     (dot3 (vz (rmat d)) c + vz (tvec d)).

(** minus the third component of the unit direction from the lab origin
    to the point *)
Definition closed_form_cos_beta (d : Detector F) (p : F * F) : F :=
  - vz (unit_vec (lab_point d p)).

(** [atan(sin(tth_nom) / (source_distance*cos_beta/zs - cos(tth_nom)))]
    for one point *)
Definition closed_form_tth_corr (d : Detector F) (p : F * F)
    (standoff thickness pinhole_thickness source_dist : F) : F :=
  let zs := standoff + fhalf * thickness + fhalf * pinhole_thickness in
  let tth_nom := (cart_to_angles_pt d p).1 in
  np_arctan
    (np_sin tth_nom /
       (source_dist * closed_form_cos_beta d p / zs - np_cos tth_nom)).

(** [-radius * (cos(eta), sin(eta), thickness/2)] *)
Definition rim_origin (radius thickness eta : F) : vec3 F :=
  V3 (- radius * np_cos eta) (- radius * np_sin eta)
     (- radius * (fhalf * thickness)).

(** the azimuth of a point on the copy of the detector whose beam vector
    is the canonical one *)
Definition reference_eta (d : Detector F) (p : F * F) : F :=
  (cart_to_angles_pt (set_bvec beam_vec d) p).2.

(** the 2-theta of the ray from the displaced origin to a point, for the
    detector's own orientation, position, beam and azimuth reference *)
Definition displaced_tth (d : Detector F) (p : F * F)
    (thickness radius : F) : F :=
  (detectorXYToGvec_pt p (rmat d) identity_3x3 (tvec d) zeros_3
     (rim_origin radius thickness (reference_eta d p)) (bvec d) (evec d)).1.

(** the pixel-centre coordinates of a detector as an Nx2 batch of
    [(x, y)] rows, in flattened pixel order *)
Definition pixel_centers (d : Detector F) : list (F * F) :=
  zip (flatten (pixel_coords d).2) (flatten (pixel_coords d).1).

(** both coordinate grids have the detector's shape *)
Definition wf_detector (d : Detector F) : Prop :=
  has_shape (shape d) (pixel_coords d).1 /\
  has_shape (shape d) (pixel_coords d).2.

Definition wf_instrument (i : Instrument F) : Prop :=
  map_Forall (fun _ d => wf_detector d) (detectors i).

(** both coordinate grids have one common shape, which need not be the
    detector's *)
Definition grids_agree (d : Detector F) : Prop :=
  exists s, has_shape s (pixel_coords d).1 /\ has_shape s (pixel_coords d).2.

(** the number of pixel centres is the number of entries of the detector's
    shape *)
Definition size_matches (d : Detector F) : Prop :=
  length (pixel_centers d) = ((shape d).1 * (shape d).2)%nat.

(** the detectors carry the instrument's beam and azimuth reference *)
Definition shares_beam (i : Instrument F) : Prop :=
  map_Forall (fun _ d => bvec d = beam_vector i /\ evec d = eta_vector i)
    (detectors i).

(** the detector's nominal angle of a point is the primitive's angle for
    the ray from the undisplaced origin *)
Definition nominal_is_undisplaced (d : Detector F) (p : F * F) : Prop :=
  (cart_to_angles_pt d p).1 =
  (detectorXYToGvec_pt p (rmat d) identity_3x3 (tvec d) zeros_3 zeros_3
     (bvec d) (evec d)).1.
End Formulas.

(** ** A concrete camera for the examples

    A geometry for the canonical beam [[0, 0, -1]]: the ray runs from the
    origin [tvec_s + rmat_s . tvec_c] to the pixel;
    its 2-theta is the angle to the [-z] axis and its azimuth the angle
    about it (written with [arctan], so for rays with positive [x] and
    negative [z]).  Rows are normalised by their Euclidean norm, and the
    nominal angles of a detector are those of the undisplaced ray to the
    (distorted) point. *)
Section Camera.
Context {F : Type} `{Num F} (fsqrt : F -> F).
Local Open Scope num_scope.

Definition camera_unit_vec (v : vec3 F) : vec3 F :=
  let n := fsqrt (dot3 v v) in
  V3 (vx v / n) (vy v / n) (vz v / n).

Definition camera_angles (xy : F * F) (rmat_d rmat_s : mat3 F)
    (tvec_d tvec_s tvec_c beamVec etaVec : vec3 F) : F * F :=
  let c := V3 xy.1 xy.2 fzero in
  let rx := dot3 (vx rmat_d) c + vx tvec_d - (vx tvec_s + dot3 (vx rmat_s) tvec_c) in
  let ry := dot3 (vy rmat_d) c + vy tvec_d - (vy tvec_s + dot3 (vy rmat_s) tvec_c) in
  let rz := dot3 (vz rmat_d) c + vz tvec_d - (vz tvec_s + dot3 (vz rmat_s) tvec_c) in
  (np_arctan (fsqrt (rx * rx + ry * ry) / - rz), np_arctan (ry / rx)).

Definition camera : Geom F := {|
  unit_vec := camera_unit_vec;
  cart_to_angles_pt := fun d xy =>
    camera_angles (default (fun p => p) (distortion d) xy) (rmat d) identity_3x3
      (tvec d) zeros_3 zeros_3 (bvec d) (evec d);
  detectorXYToGvec_pt := camera_angles
|}.

(** a panel normal to the beam, [dist] downstream of the origin, with the
    given pixel-centre grids *)
Definition flat_panel (dist : F) (shp : nat * nat) (py px : grid F)
  : Detector F :=
  {| rmat := identity_3x3; tvec := V3 fzero fzero (- dist);
     bvec := beam_vec; evec := V3 fone fzero fzero; distortion := None;
     shape := shp; pixel_coords := (py, px) |}.

(** an instrument with the single panel ["det"] *)
Definition one_panel (d : Detector F) (source_dist : F) : Instrument F :=
  {| detectors := {[ "det"%string := d ]}; beam_vector := bvec d;
     eta_vector := evec d; source_distance := source_dist |}.
End Camera.

(** Over the reals: a panel one unit downstream with the single pixel centre
    [(x, y) = (1, 0)], seen under 2-theta = pi/4. *)
Definition R_panel : Detector R :=
  flat_panel 1%R (1, 1)%nat [[0%R]] [[1%R]].

(** The same pixel on a detector that declares a 2x2 shape: one pixel centre
    for four entries. *)
Definition R_panel_mismatched : Detector R :=
  flat_panel 1%R (2, 2)%nat [[0%R]] [[1%R]].

(** Over binary64: the values of the C library at the arguments the
    examples reach (2-theta = atan(3/4), whose cosine and sine round to
    0.8 and 0.6), the special values fixed by C99 Annex F
    ([atan(+-inf) = +-pi/2], NaN for NaN, signed zeros preserved), and 0
    where this excerpt has no entry. *)
Definition pio2 : float := 0x1.921fb54442d18p+0%float.

Definition libm_excerpt : Libm := {|
  libm_cos := fun x =>
    if is_nan x then nan
    else if (x =? 0x1.4978fa3269ee1p-1)%float then 0x1.999999999999ap-1%float
    else if is_zero x then 1%float
    else 0%float;
  libm_sin := fun x =>
    if is_nan x then nan
    else if (x =? 0x1.4978fa3269ee1p-1)%float then 0x1.3333333333333p-1%float
    else if is_zero x then x
    else 0%float;
  libm_atan := fun x =>
    if is_nan x then nan
    else if (x =? infinity)%float then pio2
    else if (x =? neg_infinity)%float then (- pio2)%float
    else if (x =? 0.75)%float then 0x1.4978fa3269ee1p-1%float
    else if is_zero x then x
    else 0%float
|}.

(** A panel four units downstream with the single pixel centre
    [(x, y) = (3, 0)]: the ray [(3, 0, -4)] has length 5. *)
Definition float_panel : Detector float :=
  @flat_panel float (float_Num libm_excerpt) 4%float (1, 1)%nat
    [[0%float]] [[3%float]].

(** The same panel with two pixel centres, [(3, 0)] and [(0, 0)]: the second
    lies on the beam axis. *)
Definition float_panel2 : Detector float :=
  @flat_panel float (float_Num libm_excerpt) 4%float (1, 2)%nat
    [[0%float; 0%float]] [[3%float; 0%float]].

(** The two concrete settings: the reals with their square root, and
    binary64 with the excerpt of the C library and the IEEE square root. *)
Definition R_camera : Geom R := @camera R R_Num R_sqrt.sqrt.
Definition binary64 : Num float := float_Num libm_excerpt.
Definition float_camera : Geom float :=
  @camera float binary64 PrimFloat.sqrt.

(** rewrites the argument of a real square root to a given value *)
Ltac sqrt_arg v :=
  match goal with
  | |- context [R_sqrt.sqrt ?a] => replace a with v by lra
  end.

(** What C99 Annex F and the range of the arctangent fix for [atan] on
    binary64: [atan(+-inf) = +-pi/2] (rounded), a NaN for a NaN, and a
    finite value for every other argument. *)
Definition atan_conforms (m : Libm) : Prop :=
  libm_atan m infinity = pio2 /\
  libm_atan m neg_infinity = (- pio2)%float /\
  (forall x, is_nan x = true -> is_nan (libm_atan m x) = true) /\
  (forall x, is_nan x = false -> is_finite (libm_atan m x) = true).

(** * Properties *)

(** ** The arithmetic laws over the reals and over binary64 *)

Lemma R_NumLaws : NumLaws R.
Proof.
  split; intros x y; simpl.
  - apply Rmult_comm.
  - reflexivity.
Qed.

Lemma R_ExactLaws : ExactLaws R.
Proof. split; intros x; simpl; ring. Qed.

Lemma float_mul_comm (x y : float) : (x * y)%float = (y * x)%float.
Proof.
  apply Prim2SF_inj. rewrite !mul_spec.
  destruct (Prim2SF x) as [sx|sx| |sx mx ex],
           (Prim2SF y) as [sy|sy| |sy my ey];
    simpl; rewrite ?(xorb_comm sy sx); try reflexivity.
  by rewrite (Pos.mul_comm my mx), (Z.add_comm ey ex).
Qed.

Lemma float_sub_add_opp (x y : float) : (x - y)%float = (x + - y)%float.
Proof.
  apply Prim2SF_inj. rewrite sub_spec, add_spec, opp_spec.
  destruct (Prim2SF x) as [sx|sx| |sx mx ex],
           (Prim2SF y) as [sy|sy| |sy my ey];
    simpl; try reflexivity; by destruct sx, sy.
Qed.

Lemma float_NumLaws (m : Libm) : @NumLaws float (float_Num m).
Proof.
  split; intros x y; simpl.
  - apply float_mul_comm.
  - apply float_sub_add_opp.
Qed.

(** ** Arrays: shapes, columns, flattening and reshaping *)

Section ArrayFacts.
Context {F : Type} `{Num F}.

Lemma zip_with_fmap_same {A B C D} (f : B -> C -> D) (g : A -> B)
    (h : A -> C) (l : list A) :
  zip_with f (g <$> l) (h <$> l) = (fun a => f (g a) (h a)) <$> l.
Proof. induction l as [|a l IH]; simpl; by f_equal. Qed.

Lemma hstack_zeros_fmap (xy : list (F * F)) :
  hstack_zeros xy = (fun p => V3 p.1 p.2 fzero) <$> xy.
Proof.
  unfold hstack_zeros. induction xy as [|p xy IH]; simpl; by f_equal.
Qed.

Lemma length_vstack2_T (a b : list F) :
  length a = length b -> length (vstack2_T a b) = length a.
Proof. intros E. unfold vstack2_T. rewrite length_zip_with. lia. Qed.

Lemma Forall_vstack2_T (a b : list F) :
  Forall (fun row => length row = 2) (vstack2_T a b).
Proof.
  unfold vstack2_T. revert b.
  induction a as [|x a IH]; intros [|y b]; simpl; constructor; auto.
Qed.

Lemma column_0_vstack2_T (a b : list F) :
  length a = length b -> column 0 (vstack2_T a b) = a.
Proof.
  unfold column, vstack2_T. revert b.
  induction a as [|x a IH]; intros [|y b] E; simpl in *; try done.
  f_equal. apply IH. lia.
Qed.

Lemma column_1_vstack2_T (a b : list F) :
  length a = length b -> column 1 (vstack2_T a b) = b.
Proof.
  unfold column, vstack2_T. revert b.
  induction a as [|x a IH]; intros [|y b] E; simpl in *; try done.
  f_equal. apply IH. lia.
Qed.

Lemma length_flatten (s : nat * nat) (g : grid F) :
  has_shape s g -> length (flatten g) = s.1 * s.2.
Proof.
  destruct s as [n c]. unfold has_shape, flatten. simpl. intros [<- Hrows].
  induction Hrows as [|row g Hrow _ IH]; simpl; [done|].
  rewrite length_app. lia.
Qed.

Lemma has_shape_chunks (n c : nat) (l : list F) :
  length l = n * c -> has_shape (n, c) (chunks n c l).
Proof.
  revert l. induction n as [|n IH]; intros l E; simpl.
  - by split.
  - destruct (IH (drop c l)) as [E1 E2]; [rewrite length_drop; lia|].
    split; simpl in *; [by rewrite E1|].
    constructor; [|done]. rewrite length_take. lia.
Qed.

Lemma flatten_chunks (n c : nat) (l : list F) :
  length l = n * c -> flatten (chunks n c l) = l.
Proof.
  unfold flatten. revert l. induction n as [|n IH]; intros l E; simpl.
  - by destruct l.
  - rewrite IH; [apply take_drop|]. rewrite length_drop. lia.
Qed.

Lemma reshape_Ok (s : nat * nat) (l : list F) :
  length l = s.1 * s.2 -> reshape s l = Ok (chunks s.1 s.2 l).
Proof. intros E. unfold reshape. by rewrite decide_True. Qed.

Lemma rows_agree (s : nat * nat) (g1 g2 : grid F) :
  has_shape s g1 -> has_shape s g2 ->
  Forall2 (fun a b => length a = length b) g1 g2.
Proof.
  intros [E1 H1] [E2 H2]. rewrite <- E2 in E1. clear E2.
  revert g2 E1 H2.
  induction H1 as [|r1 g1 Hr1 _ IH]; intros [|r2 g2] E H2;
    simpl in *; try done; try constructor.
  - inversion H2; subst. congruence.
  - inversion H2; subst. apply IH; [lia|done].
Qed.

Lemma flatten_zip_with (f : F -> F -> F) (g1 g2 : grid F) :
  Forall2 (fun a b => length a = length b) g1 g2 ->
  flatten (zip_with (zip_with f) g1 g2) =
  zip_with f (flatten g1) (flatten g2).
Proof.
  unfold flatten.
  induction 1 as [|r1 r2 g1 g2 Hr _ IH]; simpl; [done|].
  by rewrite zip_with_app, IH.
Qed.

Lemma has_shape_zip_with (f : F -> F -> F) (s : nat * nat) (g1 g2 : grid F) :
  has_shape s g1 -> has_shape s g2 ->
  has_shape s (zip_with (zip_with f) g1 g2).
Proof.
  intros [E1 H1] [E2 H2]. split.
  - rewrite length_zip_with. lia.
  - rewrite <- E2 in E1. clear E2. revert g2 E1 H2.
    induction H1 as [|r1 g1 Hr1 _ IH]; intros [|r2 g2] E H2;
      simpl in *; try done.
    inversion H2; subst. constructor; [|apply IH; [lia|done]].
    rewrite length_zip_with. lia.
Qed.
End ArrayFacts.

(** ** The loops *)

Section LoopFacts.
Context {A B : Type}.

(** A loop that stores [g x] at index [i] for every [(i, x)] of
    [enumerate] fills the slots [k .. k + len - 1] and leaves the others. *)
Lemma foldl_store_enumerate (g : A -> B)
    (step : list B -> nat * A -> list B)
    (Hstep : forall acc i x, step acc (i, x) = <[i := g x]> acc)
    (l : list A) (k : nat) (acc : list B) :
  k + length l <= length acc ->
  foldl step acc (zip (seq k (length l)) l) =
  take k acc ++ (g <$> l) ++ drop (k + length l) acc.
Proof.
  revert k acc. induction l as [|x l IH]; intros k acc Hlen; simpl in *.
  - by rewrite Nat.add_0_r, take_drop.
  - assert (Hk : k < length acc) by (clear IH; lia).
    assert (Hk' : S k + length l <= length (<[k := g x]> acc))
      by (rewrite length_insert; clear IH; lia).
    rewrite Hstep, (IH _ _ Hk'). clear IH.
    rewrite (take_S_r _ _ (g x)) by (by apply list_lookup_insert_eq).
    rewrite take_insert_ge by lia.
    rewrite drop_insert_lt by lia.
    replace (S k + length l) with (k + S (length l)) by lia.
    by rewrite <- app_assoc.
Qed.

Lemma foldl_store_all (g : A -> B)
    (step : list B -> nat * A -> list B)
    (Hstep : forall acc i x, step acc (i, x) = <[i := g x]> acc)
    (l : list A) (z : B) :
  foldl step (replicate (length l) z) (zip (seq 0 (length l)) l) = g <$> l.
Proof.
  rewrite (foldl_store_enumerate g step Hstep)
    by (rewrite length_replicate; lia).
  rewrite take_0, drop_replicate. simpl.
  by rewrite Nat.sub_diag, app_nil_r.
Qed.

Lemma fmap_zip_uncurried {C} (h : A -> C -> B) (l : list A) (k : list C) :
  (fun x : A * C => h x.1 x.2) <$> zip l k = zip_with h l k.
Proof.
  revert k. induction l as [|a l IH]; intros [|c k]; simpl; try done.
  by rewrite IH.
Qed.

Lemma zip_with_fmap_snd {C} (h : A -> C -> B) (f : A -> C) (l : list A) :
  zip_with h l (f <$> l) = (fun a => h a (f a)) <$> l.
Proof. induction l as [|a l IH]; simpl; by f_equal. Qed.
End LoopFacts.

(** ** The point evaluators, row by row *)

Section PointFacts.
Context {F : Type} `{Num F} `{Geom F}.
Local Open Scope num_scope.

Lemma length_cart_to_angles (d : Detector F) (xy : list (F * F)) :
  length (cart_to_angles d xy) = length xy.
Proof. apply length_fmap. Qed.

(** the batch [cos_beta] is the per-point [cos_beta], given that products
    commute (numpy contracts [crds . rmat.T], the formula [rmat . p]) *)
Lemma sample_layer_cos_beta_rows `{!NumLaws F} (d : Detector F)
    (xy : list (F * F)) :
  sample_layer_cos_beta d xy = closed_form_cos_beta d <$> xy.
Proof.
  unfold sample_layer_cos_beta, unitRowVector, add_row, dot_rows.
  rewrite hstack_zeros_fmap.
  induction xy as [|p xy IH]; simpl; [done|]. f_equal; [|exact IH].
  unfold closed_form_cos_beta, lab_point, dot3, col3, transpose3. simpl.
  by rewrite !(fmul_comm p.1), !(fmul_comm p.2), !(fmul_comm fzero).
Qed.

Lemma sample_layer_denominator_rows `{!NumLaws F} (d : Detector F)
    (xy : list (F * F)) (zs sd : F) :
  sample_layer_denominator d xy zs sd =
  (fun p => sd * closed_form_cos_beta d p / zs
            - np_cos (cart_to_angles_pt d p).1) <$> xy.
Proof.
  unfold sample_layer_denominator, cart_to_angles.
  rewrite sample_layer_cos_beta_rows.
  induction xy as [|p xy IH]; simpl; by f_equal.
Qed.

Lemma sample_layer_tth_corr_rows `{!NumLaws F} (d : Detector F)
    (xy : list (F * F)) (standoff thickness ph sd : F) :
  sample_layer_tth_corr d xy standoff thickness ph sd =
  (fun p => closed_form_tth_corr d p standoff thickness ph sd) <$> xy.
Proof.
  unfold sample_layer_tth_corr. rewrite sample_layer_denominator_rows.
  unfold cart_to_angles, closed_form_tth_corr, layer_zs.
  induction xy as [|p xy IH]; simpl; by f_equal.
Qed.

Lemma length_sample_layer_tth_corr (d : Detector F) (xy : list (F * F))
    (standoff thickness ph sd : F) :
  length (sample_layer_tth_corr d xy standoff thickness ph sd) = length xy.
Proof.
  unfold sample_layer_tth_corr, sample_layer_denominator,
    sample_layer_cos_beta, unitRowVector, add_row, dot_rows, hstack_zeros,
    cart_to_angles.
  repeat first [rewrite length_fmap | rewrite length_zip_with
               | rewrite length_replicate].
  lia.
Qed.

(** the loop computes, for each pair, the primitive's 2-theta for the
    origin on the rim *)
Lemma pinhole_loop_rows (rm : mat3 F) (tv bv ev : vec3 F) (t r : F)
    (pts : list (F * F)) (etas : list F) :
  length etas = length pts ->
  pinhole_loop rm tv bv ev t r (length pts) pts etas =
  zip_with
    (fun p eta =>
       (detectorXYToGvec_pt p rm identity_3x3 tv zeros_3
          (rim_origin r t eta) bv ev).1)
    pts etas.
Proof.
  intros E. unfold pinhole_loop, enumerate.
  assert (El : length pts = length (zip pts etas))
    by (rewrite length_zip_with; lia).
  rewrite El at 1.
  rewrite (foldl_store_all
    (fun x : (F * F) * F =>
       (detectorXYToGvec_pt x.1 rm identity_3x3 tv zeros_3
          (rim_origin r t x.2) bv ev).1)).
  - apply (fmap_zip_uncurried
      (fun p eta =>
         (detectorXYToGvec_pt p rm identity_3x3 tv zeros_3
            (rim_origin r t eta) bv ev).1)).
  - by intros acc i [pxy reta].
Qed.

Lemma pinhole_tth_corr_rows (d : Detector F) (xy : list (F * F)) (t r : F) :
  pinhole_tth_corr d xy t r =
  (fun p => displaced_tth d p t r - (cart_to_angles_pt d p).1) <$> xy.
Proof.
  unfold pinhole_tth_corr, cart_to_angles.
  rewrite pinhole_loop_rows by (by rewrite !length_fmap).
  unfold displaced_tth, reference_eta.
  induction xy as [|p xy IH]; simpl; by f_equal.
Qed.

Lemma length_pinhole_tth_corr (d : Detector F) (xy : list (F * F)) (t r : F) :
  length (pinhole_tth_corr d xy t r) = length xy.
Proof. by rewrite pinhole_tth_corr_rows, length_fmap. Qed.
End PointFacts.

(** ** The point evaluators: return conventions, closed form, origin *)

Section PointClaims.
Context {F : Type} `{Num F} `{Geom F}.
Local Open Scope num_scope.



(** C5: [tth_corr_sample_layer] computes its correction term per row as
    [atan(sin(tth_nom) / (source_distance*cos_beta/zs - cos(tth_nom)))],
    with [zs = standoff + thickness/2 + pinhole_thickness/2], [tth_nom]
    the detector's nominal 2-theta of the point and [cos_beta] minus the
    third component of the unit direction to the point in the lab frame;
    the row returned is [(tth_nom - tth_corr, eta)] or
    [(-tth_corr, eta)]. *)
Theorem sample_layer_closed_form `{!NumLaws F} (d : Detector F)
    (xy : list (F * F)) (standoff thickness ph sd : F) :
  sample_layer_tth_corr d xy standoff thickness ph sd =
    (fun p => closed_form_tth_corr d p standoff thickness ph sd) <$> xy
  /\ tth_corr_sample_layer d xy standoff thickness ph sd true =
     (fun p => [(cart_to_angles_pt d p).1
                  - closed_form_tth_corr d p standoff thickness ph sd;
                (cart_to_angles_pt d p).2]) <$> xy
  /\ tth_corr_sample_layer d xy standoff thickness ph sd false =
     (fun p => [- closed_form_tth_corr d p standoff thickness ph sd;
                (cart_to_angles_pt d p).2]) <$> xy.
Proof.
  unfold tth_corr_sample_layer. rewrite sample_layer_tth_corr_rows.
  split; [done|]. unfold cart_to_angles, vstack2_T.
  split; induction xy as [|p xy IH]; simpl; by f_equal.
Qed.

(** C6: [tth_corr_pinhole] takes, for every point, the ray origin
    [-pinhole_radius * (cos(ref_eta), sin(ref_eta), pinhole_thickness/2)],
    where [ref_eta] is the point's azimuth on a copy of the detector that
    differs from it only by the canonical beam vector [0, 0, -1]; the
    primitive is called with that origin and with the detector's own
    orientation, position, beam and azimuth reference vectors. *)
Theorem pinhole_origin_on_rim (d : Detector F) (xy : list (F * F))
    (t r : F) :
  pinhole_tth_corr d xy t r =
    (fun p =>
       (detectorXYToGvec_pt p (rmat d) identity_3x3 (tvec d) zeros_3
          (V3 (- r * np_cos (reference_eta d p))
              (- r * np_sin (reference_eta d p))
              (- r * (fhalf * t)))
          (bvec d) (evec d)).1
       - (cart_to_angles_pt d p).1) <$> xy
  /\ (forall p,
        reference_eta d p =
        (cart_to_angles_pt (set_bvec (V3 fzero fzero (- fone)) d) p).2)
  /\ (forall v,
        bvec (set_bvec v d) = v /\ rmat (set_bvec v d) = rmat d /\
        tvec (set_bvec v d) = tvec d /\ evec (set_bvec v d) = evec d /\
        distortion (set_bvec v d) = distortion d /\
        shape (set_bvec v d) = shape d /\
        pixel_coords (set_bvec v d) = pixel_coords d).
Proof.
  split; [apply pinhole_tth_corr_rows|]. split; [done|].
  intros v. by repeat split.
Qed.

End PointClaims.

(** *** Instances of the point-evaluator properties *)

Section PointExamples.
Local Existing Instance binary64.
Local Existing Instance float_camera.
Local Existing Instance R_camera.


Lemma sample_layer_closed_form_witness :
  NumLaws R /\
  tth_corr_sample_layer R_panel [(1, 0)]%R 1%R 0%R 0%R 2%R false =
    [[(- closed_form_tth_corr R_panel (1, 0) 1 0 0 2)%R;
      (cart_to_angles_pt R_panel (1, 0)%R).2]].
Proof.
  split; [exact R_NumLaws|].
  exact (proj2 (proj2 (@sample_layer_closed_form R R_Num R_camera R_NumLaws
                         R_panel [(1, 0)]%R 1 0 0 2)%R)).
Defined.

End PointExamples.

(** ** The map evaluators *)

Section MapFacts.
Context {F : Type} `{Num F} `{Geom F}.
Local Open Scope num_scope.

Lemma zip_with_flip {A B C} (h : A -> B -> C) (a : list A) (b : list B) :
  zip_with h a b = (fun p => h p.2 p.1) <$> zip b a.
Proof.
  revert b. induction a as [|x a IH]; intros [|y b]; simpl; try done.
  by rewrite IH.
Qed.

Lemma fmap_pairs_ext {A} (f g : F * F -> A) (l : list (F * F)) :
  (forall x y, f (x, y) = g (x, y)) -> f <$> l = g <$> l.
Proof.
  intros E. induction l as [|[x y] l IH]; [done|].
  by rewrite !fmap_cons, E, IH.
Qed.

Lemma length_pixel_centers (d : Detector F) :
  wf_detector d -> length (pixel_centers d) = ((shape d).1 * (shape d).2)%nat.
Proof.
  intros [Hy Hx]. unfold pixel_centers.
  rewrite length_zip_with, (length_flatten _ _ Hy), (length_flatten _ _ Hx).
  lia.
Qed.

Lemma flatten_pixel_angles_tth (d : Detector F) :
  wf_detector d ->
  flatten (pixel_angles d).1 =
  (fun p => (cart_to_angles_pt d p).1) <$> pixel_centers d.
Proof.
  unfold wf_detector, pixel_angles, pixel_centers.
  destruct (pixel_coords d) as [py px]; simpl. intros [Hy Hx].
  rewrite flatten_zip_with by (eapply rows_agree; eauto).
  rewrite zip_with_flip. by apply fmap_pairs_ext.
Qed.

Lemma flatten_pixel_angles_eta (d : Detector F) :
  wf_detector d ->
  flatten (pixel_angles d).2 =
  (fun p => (cart_to_angles_pt d p).2) <$> pixel_centers d.
Proof.
  unfold wf_detector, pixel_angles, pixel_centers.
  destruct (pixel_coords d) as [py px]; simpl. intros [Hy Hx].
  rewrite flatten_zip_with by (eapply rows_agree; eauto).
  rewrite zip_with_flip. by apply fmap_pairs_ext.
Qed.

Lemma has_shape_pixel_angles_tth (d : Detector F) :
  wf_detector d -> has_shape (shape d) (pixel_angles d).1.
Proof.
  unfold wf_detector, pixel_angles.
  destruct (pixel_coords d) as [py px]; simpl. intros [Hy Hx].
  by apply has_shape_zip_with.
Qed.

(** the columns of [np.dot(rmat, crds) + tvec.reshape(3, 1)] are the lab
    points of the pixel centres *)
Lemma map_lab_points (d : Detector F) (xs ys : list F) :
  length xs = length ys ->
  transpose3N
    (add_col (dot_cols (rmat d) (V3 xs ys (replicate (length xs) fzero)))
       (tvec d)) =
  lab_point d <$> zip xs ys.
Proof.
  unfold transpose3N, add_col, dot_cols, dot_cols_row, vec3_map. simpl.
  revert ys. induction xs as [|x xs IH]; intros [|y ys] E; simpl in *;
    try done.
  f_equal. apply IH. lia.
Qed.

Lemma map_sample_layer_body_rows (inst : Instrument F)
    (standoff thickness ph : F) (d : Detector F) :
  wf_detector d ->
  map_sample_layer_body inst (layer_zs standoff thickness ph) d =
  Ok (chunks (shape d).1 (shape d).2
        ((fun p => closed_form_tth_corr d p standoff thickness ph
                     (source_distance inst)) <$> pixel_centers d)).
Proof.
  intros Hwf. pose proof (flatten_pixel_angles_tth d Hwf) as Ea.
  pose proof (length_pixel_centers d Hwf) as El.
  unfold map_sample_layer_body. rewrite Ea. clear Ea.
  unfold pixel_centers in *. destruct Hwf as [Hy Hx].
  destruct (pixel_coords d) as [py px]; simpl in *.
  rewrite map_lab_points
    by (by rewrite (length_flatten _ _ Hy), (length_flatten _ _ Hx)).
  unfold unitRowVector.
  set (l := zip (flatten px) (flatten py)) in *.
  assert (E : np_arctan <$>
      zip_with fdiv (np_sin <$> ((fun p => (cart_to_angles_pt d p).1) <$> l))
        (zip_with fsub
           ((fun c => source_distance inst * c / layer_zs standoff thickness ph)
              <$> ((fun v => - vz v) <$> (unit_vec <$> (lab_point d <$> l))))
           (np_cos <$> ((fun p => (cart_to_angles_pt d p).1) <$> l))) =
      (fun p => closed_form_tth_corr d p standoff thickness ph
                  (source_distance inst)) <$> l).
  { clear El. unfold closed_form_tth_corr, closed_form_cos_beta, layer_zs.
    induction l as [|p l IH]; simpl; by f_equal. }
  rewrite E. apply reshape_Ok. by rewrite length_fmap.
Qed.
Lemma map_pinhole_body_rows (inst : Instrument F) (t r : F) (k : string)
    (d : Detector F) :
  detectors inst !! k = Some d -> wf_detector d ->
  exists g,
    map_pinhole_body inst (set_beam_vector beam_vec inst) t r k d = Ok g /\
    has_shape (shape d) g /\
    flatten g =
    (fun p =>
       (detectorXYToGvec_pt p (rmat d) identity_3x3 (tvec d) zeros_3
          (rim_origin r t (reference_eta d p))
          (beam_vector inst) (eta_vector inst)).1
       - (cart_to_angles_pt d p).1) <$> pixel_centers d.
Proof.
  intros Hk Hwf.
  pose proof (flatten_pixel_angles_eta (set_bvec beam_vec d) Hwf) as Eeta.
  pose proof (flatten_pixel_angles_tth d Hwf) as Etth.
  pose proof (has_shape_pixel_angles_tth d Hwf) as Hs.
  pose proof (length_pixel_centers d Hwf) as El.
  unfold map_pinhole_body, set_beam_vector. simpl.
  rewrite lookup_fmap, Hk. simpl. rewrite Eeta. clear Eeta.
  change (pixel_centers (set_bvec beam_vec d)) with (pixel_centers d).
  unfold pixel_centers in *.
  destruct (pixel_coords d) as [py px]; simpl in *.
  set (l := zip (flatten px) (flatten py)) in *.
  rewrite length_fmap, pinhole_loop_rows by (by rewrite length_fmap).
  rewrite zip_with_fmap_snd.
  destruct (shape d) as [n c] eqn:Es; simpl in *.
  rewrite reshape_Ok by (by rewrite length_fmap). simpl.
  eexists; split; [reflexivity|]. split.
  - apply has_shape_zip_with; [|exact Hs].
    apply has_shape_chunks. by rewrite length_fmap.
  - rewrite flatten_zip_with.
    + rewrite flatten_chunks by (by rewrite length_fmap).
      rewrite Etth. apply zip_with_fmap_same.
    + eapply rows_agree; [|exact Hs].
      apply has_shape_chunks. by rewrite length_fmap.
Qed.

(** the loop over [instrument.detectors.items()]: when every body returns,
    the loop returns a dictionary with the keys of the instrument and the
    body's array under each key *)
Lemma for_detectors_items (P : Detector F -> grid F -> Prop)
    (body : string -> Detector F -> result (grid F))
    (items : list (string * Detector F)) :
  NoDup items.*1 ->
  (forall k d, (k, d) ∈ items -> exists g, body k d = Ok g /\ P d g) ->
  forall acc, exists m,
    for_detectors body items acc = Ok m /\
    (forall k, k ∉ items.*1 -> m !! k = acc !! k) /\
    (forall k d, (k, d) ∈ items -> exists g, m !! k = Some (Some g) /\ P d g).
Proof.
  induction items as [|[k0 d0] rest IH]; intros Hnd Hbody acc.
  - exists acc. split; [done|]. split; [done|].
    intros k d Hin. by apply elem_of_nil in Hin.
  - apply NoDup_cons in Hnd as [Hk0 Hnd]. simpl in Hk0.
    destruct (Hbody k0 d0) as (g0 & Eg0 & Pg0); [left|].
    destruct (IH Hnd (fun k d Hin => Hbody k d (list_elem_of_further _ _ _ Hin))
                (<[k0 := Some g0]> acc)) as (m & Em & Hout & Hin).
    exists m. split; [simpl; by rewrite Eg0|]. split.
    + intros k Hk. simpl in Hk. apply not_elem_of_cons in Hk as [Hne Hk].
      by rewrite (Hout k Hk), lookup_insert_ne.
    + intros k d Hkd. apply elem_of_cons in Hkd as [Heq|Hkd].
      * inversion Heq; subst. exists g0. split; [|done].
        by rewrite (Hout k0 Hk0), lookup_insert_eq.
      * by apply Hin.
Qed.

Lemma for_detectors_dict (P : Detector F -> grid F -> Prop)
    (body : string -> Detector F -> result (grid F))
    (ds : gmap string (Detector F)) :
  (forall k d, ds !! k = Some d -> exists g, body k d = Ok g /\ P d g) ->
  exists m,
    for_detectors body (map_to_list ds) (fromkeys ds) = Ok m /\
    dom m = dom ds /\
    (forall k d, ds !! k = Some d -> exists g, m !! k = Some (Some g) /\ P d g).
Proof.
  intros Hbody.
  destruct (for_detectors_items P body (map_to_list ds))
    with (acc := fromkeys ds) as (m & Em & Hout & Hin).
  - apply NoDup_fst_map_to_list.
  - intros k d Hkd. apply Hbody. by apply elem_of_map_to_list.
  - exists m. split; [exact Em|]. split.
    + apply set_eq. intros k. rewrite !elem_of_dom.
      destruct (ds !! k) as [d|] eqn:Ek.
      * destruct (Hin k d) as (g & Eg & _); [by apply elem_of_map_to_list|].
        rewrite Eg. split; eauto.
      * rewrite Hout.
        -- unfold fromkeys. rewrite lookup_fmap, Ek. simpl. by rewrite <- !not_eq_None_Some.
        -- intros Hk. apply list_elem_of_fmap in Hk as ([k' d] & -> & Hkd).
           apply elem_of_map_to_list in Hkd. simpl in Ek. congruence.
    + intros k d Ek. apply Hin. by apply elem_of_map_to_list.
Qed.

Lemma tth_corr_map_sample_layer_entries (inst : Instrument F)
    (standoff thickness ph : F) :
  wf_instrument inst ->
  exists m,
    tth_corr_map_sample_layer inst standoff thickness ph = Ok m /\
    dom m = dom (detectors inst) /\
    (forall k d, detectors inst !! k = Some d ->
       exists g, m !! k = Some (Some g) /\
         (has_shape (shape d) g /\
          flatten g =
          (fun p => closed_form_tth_corr d p standoff thickness ph
                      (source_distance inst)) <$> pixel_centers d)).
Proof.
  intros Hwf. unfold tth_corr_map_sample_layer.
  apply (for_detectors_dict
    (fun d g =>
       has_shape (shape d) g /\
       flatten g =
       (fun p => closed_form_tth_corr d p standoff thickness ph
                   (source_distance inst)) <$> pixel_centers d)).
  intros k d Ek. pose proof (Hwf k d Ek) as Hd. simpl in Hd.
  pose proof (length_pixel_centers d Hd) as El.
  rewrite map_sample_layer_body_rows by done.
  eexists; split; [reflexivity|]. split.
  - destruct (shape d) as [n c]. apply has_shape_chunks.
    by rewrite length_fmap.
  - apply flatten_chunks. by rewrite length_fmap.
Qed.

Lemma tth_corr_map_pinhole_entries (inst : Instrument F) (t r : F) :
  wf_instrument inst ->
  exists m,
    tth_corr_map_pinhole inst t r = Ok m /\
    dom m = dom (detectors inst) /\
    (forall k d, detectors inst !! k = Some d ->
       exists g, m !! k = Some (Some g) /\
         (has_shape (shape d) g /\
          flatten g =
          (fun p =>
             (detectorXYToGvec_pt p (rmat d) identity_3x3 (tvec d) zeros_3
                (rim_origin r t (reference_eta d p))
                (beam_vector inst) (eta_vector inst)).1
             - (cart_to_angles_pt d p).1) <$> pixel_centers d)).
Proof.
  intros Hwf. unfold tth_corr_map_pinhole.
  apply (for_detectors_dict
    (fun d g =>
       has_shape (shape d) g /\
       flatten g =
       (fun p =>
          (detectorXYToGvec_pt p (rmat d) identity_3x3 (tvec d) zeros_3
             (rim_origin r t (reference_eta d p))
             (beam_vector inst) (eta_vector inst)).1
          - (cart_to_angles_pt d p).1) <$> pixel_centers d)).
  intros k d Ek. apply map_pinhole_body_rows; [done|]. exact (Hwf k d Ek).
Qed.
End MapFacts.

(** ** The example instruments *)

Section ExampleFacts.
Context {F : Type} `{Num F} `{Geom F}.

Lemma wf_one_panel (d : Detector F) (sd : F) :
  wf_detector d -> wf_instrument (one_panel d sd).
Proof. intros Hd. by apply map_Forall_singleton. Qed.

Lemma shares_beam_one_panel (d : Detector F) (sd : F) :
  shares_beam (one_panel d sd).
Proof. by apply map_Forall_singleton. Qed.

Lemma lookup_one_panel (d : Detector F) (sd : F) :
  detectors (one_panel d sd) !! "det"%string = Some d.
Proof. apply lookup_singleton_eq. Qed.
End ExampleFacts.

Section RealExample.
Local Existing Instance R_camera.
Local Open Scope R_scope.

Lemma wf_R_panel : wf_detector R_panel.
Proof. split; (split; [reflexivity|by repeat constructor]). Qed.

Lemma R_panel_tth : (cart_to_angles_pt R_panel (1, 0)).1 = PI / 4.
Proof.
  unfold cart_to_angles_pt, R_camera, camera, camera_angles, R_panel,
    flat_panel. simpl. unfold dot3. simpl.
  sqrt_arg 1. rewrite sqrt_1, <- atan_1. f_equal. field; lra.
Qed.

Lemma R_panel_eta (v : vec3 R) :
  (cart_to_angles_pt (set_bvec v R_panel) (1, 0)).2 = 0.
Proof.
  unfold cart_to_angles_pt, R_camera, camera, camera_angles, R_panel,
    flat_panel. simpl. unfold dot3. simpl.
  etransitivity; [|apply atan_0]. f_equal. field; lra.
Qed.

Lemma R_panel_cos_beta :
  closed_form_cos_beta R_panel (1, 0) = / R_sqrt.sqrt 2.
Proof.
  unfold closed_form_cos_beta, lab_point, R_panel, flat_panel; simpl.
  unfold camera_unit_vec, dot3; simpl. sqrt_arg 2.
  assert (R_sqrt.sqrt 2 <> 0) by (apply Rgt_not_eq, sqrt_lt_R0; lra).
  by field.
Qed.

(** standoff 1, no thickness, source two units away: the ratio under the
    arctangent is 1 *)
Lemma R_panel_closed_form :
  closed_form_tth_corr R_panel (1, 0) 1 0 0 2 = PI / 4.
Proof.
  unfold closed_form_tth_corr. rewrite R_panel_tth, R_panel_cos_beta. simpl.
  rewrite sin_PI4, cos_PI4, <- atan_1. f_equal.
  assert (R_sqrt.sqrt 2 <> 0) by (apply Rgt_not_eq, sqrt_lt_R0; lra).
  by field.
Qed.

(** radius 1, no thickness: the origin is [(-1, 0, 0)] and the ray to the
    pixel [(2, 0, -1)] *)
Lemma R_panel_displaced : displaced_tth R_panel (1, 0) 0 1 = atan 2.
Proof.
  unfold displaced_tth, reference_eta. rewrite (R_panel_eta beam_vec).
  unfold rim_origin. simpl. rewrite cos_0, sin_0.
  unfold camera_angles, dot3; simpl.
  sqrt_arg (2 * 2). rewrite sqrt_square by lra. f_equal. field; lra.
Qed.

Lemma atan_2_above : PI / 4 < atan 2.
Proof. rewrite <- atan_1. apply atan_increasing. lra. Qed.
End RealExample.

(** ** Map evaluators against point evaluators; shapes *)

Section MapClaims.
Context {F : Type} `{Num F} `{Geom F}.
Local Open Scope num_scope.

(** C1, as the code has it: for every instrument whose detectors have
    coordinate grids of their shape, [tth_corr_map_sample_layer] returns a
    dictionary whose entry under every detector key, flattened, is the
    correction term [tth_corr] of the point evaluator at the detector's
    pixel centres with the instrument's source distance; the first column
    of [tth_corr_sample_layer] with [return_nominal=False] there is the
    NEGATION of that entry. *)
Theorem sample_layer_point_raw_is_negated_map `{!NumLaws F}
    (inst : Instrument F) (standoff thickness ph : F) :
  wf_instrument inst ->
  exists m,
    tth_corr_map_sample_layer inst standoff thickness ph = Ok m /\
    forall k d, detectors inst !! k = Some d ->
      exists g, m !! k = Some (Some g) /\
        flatten g =
          sample_layer_tth_corr d (pixel_centers d) standoff thickness ph
            (source_distance inst) /\
        column 0 (tth_corr_sample_layer d (pixel_centers d) standoff
                    thickness ph (source_distance inst) false) =
          fopp <$> flatten g.
Proof.
  intros Hwf.
  destruct (tth_corr_map_sample_layer_entries inst standoff thickness ph Hwf)
    as (m & Em & _ & Hm).
  exists m. split; [exact Em|]. intros k d Ek.
  destruct (Hm k d Ek) as (g & Eg & _ & Efl).
  exists g. split; [exact Eg|].
  rewrite Efl, <- sample_layer_tth_corr_rows. split; [done|].
  unfold tth_corr_sample_layer.
  apply column_0_vstack2_T.
  by rewrite !length_fmap, length_sample_layer_tth_corr,
    length_cart_to_angles.
Qed.

(** C2, as the code has it: for every instrument whose detectors have
    coordinate grids of their shape and carry the instrument's beam and
    azimuth reference vectors, [tth_corr_map_pinhole] returns a dictionary
    whose entry under every detector key, flattened, is the correction term
    [tth_corr] of [tth_corr_pinhole] at the detector's pixel centres; the
    first column of [tth_corr_pinhole] with [return_nominal=False] there is
    the NEGATION of that entry. *)
Theorem pinhole_point_raw_is_negated_map (inst : Instrument F) (t r : F) :
  wf_instrument inst -> shares_beam inst ->
  exists m,
    tth_corr_map_pinhole inst t r = Ok m /\
    forall k d, detectors inst !! k = Some d ->
      exists g, m !! k = Some (Some g) /\
        flatten g = pinhole_tth_corr d (pixel_centers d) t r /\
        column 0 (tth_corr_pinhole d (pixel_centers d) t r false) =
          fopp <$> flatten g.
Proof.
  intros Hwf Hbeam.
  destruct (tth_corr_map_pinhole_entries inst t r Hwf) as (m & Em & _ & Hm).
  exists m. split; [exact Em|]. intros k d Ek.
  destruct (Hm k d Ek) as (g & Eg & _ & Efl).
  destruct (Hbeam k d Ek) as [Eb Ee]. simpl in Eb, Ee.
  exists g. split; [exact Eg|].
  assert (E : flatten g = pinhole_tth_corr d (pixel_centers d) t r).
  { rewrite Efl, pinhole_tth_corr_rows. unfold displaced_tth.
    by rewrite Eb, Ee. }
  split; [exact E|]. rewrite E. unfold tth_corr_pinhole.
  apply column_0_vstack2_T.
  by rewrite !length_fmap, length_pinhole_tth_corr, length_cart_to_angles.
Qed.

(** C8: for a batch of n points both point evaluators return n rows of two
    entries each, whatever [return_nominal]; for an instrument whose
    detectors have coordinate grids of their shape both map evaluators
    return a dictionary with exactly the instrument's detector keys, each
    entry an array of that detector's shape. *)
Theorem output_shapes (d : Detector F) (xy : list (F * F))
    (standoff thickness ph sd t r : F) (return_nominal : bool)
    (inst : Instrument F) :
  wf_instrument inst ->
  (length (tth_corr_sample_layer d xy standoff thickness ph sd
             return_nominal) = length xy /\
   Forall (fun row => length row = 2%nat)
     (tth_corr_sample_layer d xy standoff thickness ph sd return_nominal))
  /\ (length (tth_corr_pinhole d xy t r return_nominal) = length xy /\
      Forall (fun row => length row = 2%nat)
        (tth_corr_pinhole d xy t r return_nominal))
  /\ (exists m,
        tth_corr_map_sample_layer inst standoff thickness ph = Ok m /\
        dom m = dom (detectors inst) /\
        forall k d', detectors inst !! k = Some d' ->
          exists g, m !! k = Some (Some g) /\ has_shape (shape d') g)
  /\ (exists m,
        tth_corr_map_pinhole inst t r = Ok m /\
        dom m = dom (detectors inst) /\
        forall k d', detectors inst !! k = Some d' ->
          exists g, m !! k = Some (Some g) /\ has_shape (shape d') g).
Proof.
  intros Hwf.
  pose proof (length_sample_layer_tth_corr d xy standoff thickness ph sd)
    as Es.
  pose proof (length_pinhole_tth_corr d xy t r) as Ep.
  pose proof (length_cart_to_angles d xy) as Ea.
  repeat split.
  - unfold tth_corr_sample_layer. destruct return_nominal;
      rewrite length_vstack2_T;
      rewrite ?length_zip_with, ?length_fmap; lia.
  - unfold tth_corr_sample_layer. destruct return_nominal;
      apply Forall_vstack2_T.
  - unfold tth_corr_pinhole. destruct return_nominal;
      rewrite length_vstack2_T;
      rewrite ?length_zip_with, ?length_fmap; lia.
  - unfold tth_corr_pinhole. destruct return_nominal;
      apply Forall_vstack2_T.
  - destruct (tth_corr_map_sample_layer_entries inst standoff thickness ph
                Hwf) as (m & Em & Hdom & Hm).
    exists m. repeat split; [exact Em|exact Hdom|]. intros k d' Ek.
    destruct (Hm k d' Ek) as (g & Eg & Hs & _). by exists g.
  - destruct (tth_corr_map_pinhole_entries inst t r Hwf)
      as (m & Em & Hdom & Hm).
    exists m. repeat split; [exact Em|exact Hdom|]. intros k d' Ek.
    destruct (Hm k d' Ek) as (g & Eg & Hs & _). by exists g.
Qed.
End MapClaims.

(** *** The single-pixel instrument over the reals *)

Section MapExamples.
Local Existing Instance R_camera.
Local Open Scope R_scope.

(** C1, as stated, fails: on the one-pixel panel with the source two units
    away and a layer standoff of 1 the map entry is [PI / 4], the first
    column of the point evaluator with [return_nominal=False] at the pixel
    centre is [- (PI / 4)]. *)
Lemma sample_layer_map_is_not_point_raw :
  tth_corr_map_sample_layer (one_panel R_panel 2) 1 0 0 =
    Ok {[ "det"%string := Some [[PI / 4]] ]} /\
  column 0 (tth_corr_sample_layer R_panel (pixel_centers R_panel) 1 0 0 2
              false) = [- (PI / 4)] /\
  PI / 4 <> - (PI / 4).
Proof.
  split; [|split].
  - unfold tth_corr_map_sample_layer, fromkeys.
    change (detectors (one_panel R_panel 2))
      with ({[ "det"%string := R_panel ]} : gmap string (Detector R)).
    rewrite map_to_list_singleton, map_fmap_singleton.
    cbn [for_detectors].
    rewrite (map_sample_layer_body_rows _ 1 0 0 R_panel wf_R_panel).
    cbn [mbind result_bind for_detectors].
    rewrite insert_singleton_eq.
    change (pixel_centers R_panel) with [(1, 0)].
    change (source_distance (one_panel R_panel 2)) with 2.
    change (shape R_panel) with (1, 1)%nat.
    cbn [fmap list_fmap chunks take drop fst snd].
    by rewrite R_panel_closed_form.
  - change (pixel_centers R_panel) with [(1, 0)].
    unfold tth_corr_sample_layer.
    rewrite (sample_layer_tth_corr_rows (NumLaws0 := R_NumLaws)).
    cbn [fmap list_fmap cart_to_angles vstack2_T zip_with column lookup
         list_lookup default].
    by rewrite R_panel_closed_form.
  - pose proof PI_RGT_0. lra.
Qed.

Lemma sample_layer_point_raw_is_negated_map_witness :
  wf_instrument (one_panel R_panel 2) /\
  exists m,
    tth_corr_map_sample_layer (one_panel R_panel 2) 1 0 0 = Ok m /\
    forall k d, detectors (one_panel R_panel 2) !! k = Some d ->
      exists g, m !! k = Some (Some g) /\
        flatten g =
          sample_layer_tth_corr d (pixel_centers d) 1 0 0
            (source_distance (one_panel R_panel 2)) /\
        column 0 (tth_corr_sample_layer d (pixel_centers d) 1 0 0
                    (source_distance (one_panel R_panel 2)) false) =
          fopp <$> flatten g.
Proof.
  split; [exact (wf_one_panel R_panel 2 wf_R_panel)|].
  exact (@sample_layer_point_raw_is_negated_map R R_Num R_camera R_NumLaws
           (one_panel R_panel 2) 1 0 0 (wf_one_panel R_panel 2 wf_R_panel)).
Defined.

(** C2, as stated, fails: on the same panel with a pinhole of radius 1 the
    map entry is [atan 2 - PI / 4], the first column of the point evaluator
    with [return_nominal=False] at the pixel centre is its negation. *)
Lemma pinhole_map_is_not_point_raw :
  exists m g,
    tth_corr_map_pinhole (one_panel R_panel 2) 0 1 = Ok m /\
    m !! "det"%string = Some (Some g) /\
    flatten g = [atan 2 - PI / 4] /\
    column 0 (tth_corr_pinhole R_panel (pixel_centers R_panel) 0 1 false) =
      [- (atan 2 - PI / 4)] /\
    flatten g <>
    column 0 (tth_corr_pinhole R_panel (pixel_centers R_panel) 0 1 false).
Proof.
  destruct (tth_corr_map_pinhole_entries (one_panel R_panel 2) 0 1
              (wf_one_panel _ _ wf_R_panel)) as (m & Em & _ & Hm).
  destruct (Hm "det"%string R_panel (lookup_one_panel _ _))
    as (g & Eg & _ & Efl).
  change (flatten g =
          (fun p => displaced_tth R_panel p 0 1
                    - (cart_to_angles_pt R_panel p).1) <$> [(1, 0)]) in Efl.
  cbn [fmap list_fmap] in Efl.
  rewrite R_panel_displaced, R_panel_tth in Efl.
  assert (Ec : column 0 (tth_corr_pinhole R_panel (pixel_centers R_panel)
                           0 1 false) = [- (atan 2 - PI / 4)]).
  { change (pixel_centers R_panel) with [(1, 0)].
    unfold tth_corr_pinhole. rewrite pinhole_tth_corr_rows.
    cbn [fmap list_fmap cart_to_angles vstack2_T zip_with column lookup
         list_lookup default].
    by rewrite R_panel_displaced, R_panel_tth. }
  exists m, g.
  split; [exact Em|]. split; [exact Eg|]. split; [exact Efl|].
  split; [exact Ec|].
  rewrite Efl, Ec. intros E. pose proof atan_2_above.
  assert (atan 2 - PI / 4 = - (atan 2 - PI / 4)) by congruence. lra.
Qed.

Lemma pinhole_point_raw_is_negated_map_witness :
  wf_instrument (one_panel R_panel 2) /\
  shares_beam (one_panel R_panel 2) /\
  exists m,
    tth_corr_map_pinhole (one_panel R_panel 2) 0 1 = Ok m /\
    forall k d, detectors (one_panel R_panel 2) !! k = Some d ->
      exists g, m !! k = Some (Some g) /\
        flatten g = pinhole_tth_corr d (pixel_centers d) 0 1 /\
        column 0 (tth_corr_pinhole d (pixel_centers d) 0 1 false) =
          fopp <$> flatten g.
Proof.
  split; [exact (wf_one_panel R_panel 2 wf_R_panel)|].
  split; [exact (shares_beam_one_panel R_panel 2)|].
  exact (@pinhole_point_raw_is_negated_map R R_Num R_camera
           (one_panel R_panel 2) 0 1 (wf_one_panel R_panel 2 wf_R_panel)
           (shares_beam_one_panel R_panel 2)).
Defined.

Lemma output_shapes_witness :
  wf_instrument (one_panel R_panel 2) /\
  length (tth_corr_pinhole R_panel [(1, 0); (1, 0)] 0 1 true) = 2%nat /\
  exists m,
    tth_corr_map_pinhole (one_panel R_panel 2) 0 1 = Ok m /\
    dom m = dom (detectors (one_panel R_panel 2)) /\
    forall k d', detectors (one_panel R_panel 2) !! k = Some d' ->
      exists g, m !! k = Some (Some g) /\ has_shape (shape d') g.
Proof.
  split; [exact (wf_one_panel R_panel 2 wf_R_panel)|].
  pose proof (@output_shapes R R_Num R_camera R_panel [(1, 0); (1, 0)]
                1 0 0 2 0 1 true (one_panel R_panel 2)
                (wf_one_panel R_panel 2 wf_R_panel))
    as (_ & (Hl & _) & _ & Hm).
  split; [exact Hl|exact Hm].
Defined.
End MapExamples.

(** ** Division and classification in binary64 *)

Section Binary64Facts.
Local Open Scope float_scope.

Lemma is_nan_spec (x : float) :
  is_nan x = match Prim2SF x with S754_nan => true | _ => false end.
Proof.
  unfold is_nan. rewrite FloatAxioms.eqb_spec.
  destruct (Prim2SF x) as [s|s| |s m e]; unfold SFeqb; simpl;
    try reflexivity.
  - destruct s; reflexivity.
  - rewrite Z.compare_refl, Pos.compare_cont_refl. destruct s; reflexivity.
Qed.

Lemma is_zero_spec (x : float) :
  is_zero x = match Prim2SF x with S754_zero _ => true | _ => false end.
Proof.
  unfold is_zero. rewrite FloatAxioms.eqb_spec.
  change (Prim2SF zero) with (S754_zero false).
  destruct (Prim2SF x) as [s|s| |s m e]; unfold SFeqb; simpl;
    try reflexivity; destruct s; reflexivity.
Qed.

Lemma is_infinity_spec (x : float) :
  is_infinity x =
  match Prim2SF x with S754_infinity _ => true | _ => false end.
Proof.
  unfold is_infinity. rewrite FloatAxioms.eqb_spec, FloatAxioms.abs_spec.
  change (Prim2SF infinity) with (S754_infinity false).
  destruct (Prim2SF x) as [s|s| |s m e]; unfold SFeqb; simpl;
    reflexivity.
Qed.

Lemma iter_pos_shr_1_nonneg (p : positive) (mrs : shr_record) :
  (0 <= shr_m mrs)%Z -> (0 <= shr_m (SpecFloat.iter_pos shr_1 p mrs))%Z.
Proof.
  assert (H1 : forall r, (0 <= shr_m r)%Z -> (0 <= shr_m (shr_1 r))%Z).
  { intros [m r s] Hm. simpl in *.
    destruct m as [|[q|q|]|q]; simpl; lia. }
  revert mrs. induction p as [p IH|p IH|]; intros mrs Hm; simpl; auto.
Qed.

Lemma shr_fexp_nonneg (prec emax m e : Z) (l : location) :
  (0 <= m)%Z -> (0 <= shr_m (fst (shr_fexp prec emax m e l)))%Z.
Proof.
  intros Hm. unfold shr_fexp, shr.
  assert (H0 : (0 <= shr_m (shr_record_of_loc m l))%Z)
    by (destruct l as [|[| |]]; exact Hm).
  destruct (fexp prec emax (Zdigits2 m + e) - e)%Z; simpl; try exact H0.
  by apply iter_pos_shr_1_nonneg.
Qed.

Lemma binary_round_aux_not_nan (prec emax : Z) (sx : bool) (mx ex : Z)
    (lx : location) :
  (0 <= mx)%Z -> binary_round_aux prec emax sx mx ex lx <> S754_nan.
Proof.
  intros Hm. unfold binary_round_aux.
  pose proof (shr_fexp_nonneg prec emax mx ex lx Hm) as H1.
  destruct (shr_fexp prec emax mx ex lx) as [mrs' e']. simpl in H1.
  assert (H2 : (0 <= round_nearest_even (shr_m mrs')
                       (loc_of_shr_record mrs'))%Z).
  { unfold round_nearest_even.
    destruct (loc_of_shr_record mrs') as [|[| |]]; try lia.
    destruct (Z.even (shr_m mrs')); lia. }
  pose proof (shr_fexp_nonneg prec emax _ e' loc_Exact H2) as H3.
  destruct (shr_fexp prec emax _ e' loc_Exact) as [mrs'' e'']. simpl in H3.
  destruct (shr_m mrs'') as [|q|q]; try discriminate; [|lia].
  destruct (e'' <=? emax - prec)%Z; discriminate.
Qed.

Lemma SFdiv_finite_not_nan (prec emax : Z) (sx sy : bool) (mx my : positive)
    (ex ey : Z) :
  SFdiv prec emax (S754_finite sx mx ex) (S754_finite sy my ey) <> S754_nan.
Proof.
  unfold SFdiv.
  destruct (SFdiv_core_binary prec emax (Z.pos mx) ex (Z.pos my) ey)
    as [[mz ez] lz] eqn:E.
  apply binary_round_aux_not_nan.
  unfold SFdiv_core_binary in E.
  set (s := (ex - ey - _)%Z) in E.
  set (m' := match s with Z.pos _ => _ | 0%Z => _ | Z.neg _ => _ end) in E.
  assert (Hm' : (0 <= m')%Z).
  { subst m'. destruct s; try lia. apply Z.shiftl_nonneg. lia. }
  pose proof (Z_div_mod m' (Z.pos my) ltac:(lia)) as Hd.
  destruct (Z.div_eucl m' (Z.pos my)) as [q r]. inversion E; subst.
  destruct Hd as [Hq Hr]. nia.
Qed.

Lemma div_by_zero (s den : float) :
  is_zero den = true -> is_nan s = false -> is_zero s = false ->
  s / den = infinity \/ s / den = neg_infinity.
Proof.
  rewrite is_nan_spec, !is_zero_spec. intros Hd Hn Hz.
  assert (E : Prim2SF (s / den) = S754_infinity false \/
              Prim2SF (s / den) = S754_infinity true).
  { rewrite FloatAxioms.div_spec.
    destruct (Prim2SF den) as [sd|sd| |sd md ed]; try discriminate.
    destruct (Prim2SF s) as [ss|ss| |ss ms es]; try discriminate; simpl;
      destruct (xorb ss sd); auto. }
  destruct E as [E|E]; [left|right]; apply Prim2SF_inj; rewrite E;
    reflexivity.
Qed.

Lemma zero_by_zero (s den : float) :
  is_zero den = true -> is_zero s = true -> is_nan (s / den) = true.
Proof.
  rewrite is_nan_spec, !is_zero_spec, FloatAxioms.div_spec. intros Hd Hz.
  destruct (Prim2SF den) as [sd|sd| |sd md ed]; try discriminate.
  destruct (Prim2SF s) as [ss|ss| |ss ms es]; try discriminate.
  reflexivity.
Qed.

Lemma div_not_nan (s den : float) :
  is_zero den = false -> is_nan den = false ->
  is_nan s = false -> is_infinity s = false ->
  is_nan (s / den) = false.
Proof.
  rewrite !is_nan_spec, is_zero_spec, is_infinity_spec, FloatAxioms.div_spec.
  intros Hz Hn Hs Hi.
  destruct (Prim2SF den) as [sd|sd| |sd md ed]; try discriminate;
    destruct (Prim2SF s) as [ss|ss| |ss ms es]; try discriminate;
    try reflexivity.
  pose proof (SFdiv_finite_not_nan prec emax ss sd ms md es ed) as H.
  unfold SF64div.
  destruct (SFdiv prec emax (S754_finite ss ms es) (S754_finite sd md ed));
    try reflexivity. congruence.
Qed.

Lemma is_finite_zero (x : float) : is_zero x = true -> is_finite x = true.
Proof.
  unfold is_finite. rewrite is_zero_spec, is_nan_spec, is_infinity_spec.
  by destruct (Prim2SF x).
Qed.

Lemma libm_excerpt_conforms : atan_conforms libm_excerpt.
Proof.
  split; [reflexivity|]. split; [reflexivity|]. split.
  - intros x Hx. simpl. by rewrite Hx.
  - intros x Hx. simpl. rewrite Hx.
    destruct (x =? infinity); [reflexivity|].
    destruct (x =? neg_infinity); [reflexivity|].
    destruct (x =? 0.75); [reflexivity|].
    destruct (is_zero x) eqn:Hz; [by apply is_finite_zero|reflexivity].
Qed.
End Binary64Facts.

(** ** The singular denominator of the sample-layer model *)

Section Singularity.
Local Open Scope float_scope.

Lemma is_finite_opp_pio2 (x : float) :
  x = pio2 \/ x = - pio2 -> is_finite x = true /\ is_finite (- x) = true.
Proof. by intros [->| ->]. Qed.

(** C7, as the code has it: on binary64 [tth_corr_sample_layer] raises
    nothing and returns one row per point.  At a row whose denominator
    [source_distance*cos_beta/zs - cos(tth_nom)] is zero the correction term
    is [arctan(+-inf) = +-pi/2], a FINITE value, whenever [sin(tth_nom)] is
    neither zero nor NaN; it is NaN only when [sin(tth_nom)] is zero as
    well.  A row whose denominator is neither zero nor NaN, and whose sine
    is finite, gets a finite correction term. *)
Theorem sample_layer_zero_denominator (m : Libm) (G : Geom float)
    (d : Detector float) (xy : list (float * float))
    (standoff thickness ph sd : float) (return_nominal : bool) :
  atan_conforms m ->
  length (@tth_corr_sample_layer float (float_Num m) G d xy standoff
            thickness ph sd return_nominal) = length xy /\
  forall i p, xy !! i = Some p ->
    let s := libm_sin m (@cart_to_angles_pt float G d p).1 in
    let den :=
      sd * @closed_form_cos_beta float (float_Num m) G d p
        / @layer_zs float (float_Num m) standoff thickness ph
      - libm_cos m (@cart_to_angles_pt float G d p).1 in
    let tth_corr := libm_atan m (s / den) in
    @sample_layer_denominator float (float_Num m) G d xy
      (@layer_zs float (float_Num m) standoff thickness ph) sd !! i
      = Some den /\
    @sample_layer_tth_corr float (float_Num m) G d xy standoff thickness ph
      sd !! i = Some tth_corr /\
    @tth_corr_sample_layer float (float_Num m) G d xy standoff thickness ph
      sd false !! i = Some [- tth_corr; (@cart_to_angles_pt float G d p).2] /\
    (is_zero den = true -> is_nan s = false -> is_zero s = false ->
       (tth_corr = pio2 \/ tth_corr = - pio2) /\
       is_finite tth_corr = true /\ is_finite (- tth_corr) = true) /\
    (is_zero den = true -> is_zero s = true -> is_nan tth_corr = true) /\
    (is_zero den = false -> is_nan den = false ->
       is_nan s = false -> is_infinity s = false ->
       is_finite tth_corr = true).
Proof.
  intros (Hinf & Hninf & Hnan & Hfin).
  pose proof (float_NumLaws m) as Laws.
  split.
  { pose proof (@length_sample_layer_tth_corr float (float_Num m) G d xy
                  standoff thickness ph sd) as Es.
    pose proof (@length_cart_to_angles float G d xy) as Ea.
    unfold tth_corr_sample_layer. destruct return_nominal;
      rewrite length_vstack2_T;
      rewrite ?length_zip_with, ?length_fmap; lia. }
  intros i p Hp s den tth_corr. split; [|split; [|split]].
  - rewrite (@sample_layer_denominator_rows float (float_Num m) G Laws).
    by rewrite list_lookup_fmap, Hp.
  - rewrite (@sample_layer_tth_corr_rows float (float_Num m) G Laws).
    by rewrite list_lookup_fmap, Hp.
  - destruct (@sample_layer_closed_form float (float_Num m) G Laws d xy
                standoff thickness ph sd) as (_ & _ & ->).
    by rewrite list_lookup_fmap, Hp.
  - split; [|split].
    + intros Hz Hn Hs.
      assert (E : tth_corr = pio2 \/ tth_corr = - pio2).
      { subst tth_corr.
        destruct (div_by_zero s den Hz Hn Hs) as [-> | ->]; auto. }
      split; [exact E|]. by apply is_finite_opp_pio2.
    + intros Hz Hs. apply Hnan. by apply zero_by_zero.
    + intros Hz Hn Hs Hi. apply Hfin. by apply div_not_nan.
Qed.

(** C7, as stated, fails: for the panel four units downstream, the point
    [(3, 0)], a standoff of 1 and the source one unit away the denominator
    is exactly zero, and the row returned is the finite
    [(-pi/2, 0)]. *)
Lemma zero_denominator_row_is_finite :
  @sample_layer_denominator float binary64 float_camera float_panel
    [(3, 0)] (@layer_zs float binary64 1 0 0) 1 = [0] /\
  @tth_corr_sample_layer float binary64 float_camera float_panel
    [(3, 0)] 1 0 0 1 false = [[- pio2; 0]] /\
  is_finite (- pio2) = true /\ is_nan (- pio2) = false.
Proof. by vm_compute. Qed.

Lemma sample_layer_zero_denominator_witness :
  atan_conforms libm_excerpt /\
  @sample_layer_tth_corr float binary64 float_camera float_panel2
    [(3, 0); (0, 0)] 1 0 0 1 !! 0%nat = Some pio2.
Proof.
  split; [exact libm_excerpt_conforms|].
  destruct (sample_layer_zero_denominator libm_excerpt float_camera
              float_panel2 [(3, 0); (0, 0)] 1 0 0 1 false
              libm_excerpt_conforms) as [_ Hrow].
  destruct (Hrow 0%nat (3, 0) eq_refl) as (_ & Htc & _).
  exact Htc.
Defined.
End Singularity.

(** ** The parameter holders *)

Section Holders.
Context {F : Type} `{Num F} `{PyRuntime F}.

(** C9: the detector setter of either class raises [AssertionError] on a
    value that is not an instance of a detector class and leaves the object
    unchanged, and stores a detector as it is; every other setter stores
    [float(x)] for a float, a bool or an int in the range of a float, and
    raises on a value [float] rejects ([TypeError] for [None] and objects
    without [__float__], [ValueError] for a string that is not a number,
    [OverflowError] for an int too large), leaving the object unchanged. *)
Theorem setters_validate_and_coerce (x : PyVal F)
    (sl : SampleLayerDistortion.t F) (ph : PinholeDistortion.t F) :
  (SampleLayerDistortion.set_detector x sl =
     if isinstance_detector x
     then (Ok tt,
           {| SampleLayerDistortion._detector := x;
              SampleLayerDistortion._standoff :=
                SampleLayerDistortion._standoff sl;
              SampleLayerDistortion._thickness :=
                SampleLayerDistortion._thickness sl;
              SampleLayerDistortion._ph_thickness :=
                SampleLayerDistortion._ph_thickness sl;
              SampleLayerDistortion._source_dist :=
                SampleLayerDistortion._source_dist sl |})
     else (Raise AssertionError, sl))
  /\ (PinholeDistortion.set_detector x ph =
        if isinstance_detector x
        then (Ok tt,
              {| PinholeDistortion._detector := x;
                 PinholeDistortion._ph_thickness :=
                   PinholeDistortion._ph_thickness ph;
                 PinholeDistortion._ph_radius :=
                   PinholeDistortion._ph_radius ph |})
        else (Raise AssertionError, ph))
  /\ (SampleLayerDistortion.set_standoff x sl =
        coerced_store x (fun v s =>
          {| SampleLayerDistortion._detector :=
               SampleLayerDistortion._detector s;
             SampleLayerDistortion._standoff := PyFloat v;
             SampleLayerDistortion._thickness :=
               SampleLayerDistortion._thickness s;
             SampleLayerDistortion._ph_thickness :=
               SampleLayerDistortion._ph_thickness s;
             SampleLayerDistortion._source_dist :=
               SampleLayerDistortion._source_dist s |}) sl)
  /\ (SampleLayerDistortion.set_thickness x sl =
        coerced_store x (fun v s =>
          {| SampleLayerDistortion._detector :=
               SampleLayerDistortion._detector s;
             SampleLayerDistortion._standoff :=
               SampleLayerDistortion._standoff s;
             SampleLayerDistortion._thickness := PyFloat v;
             SampleLayerDistortion._ph_thickness :=
               SampleLayerDistortion._ph_thickness s;
             SampleLayerDistortion._source_dist :=
               SampleLayerDistortion._source_dist s |}) sl)
  /\ (SampleLayerDistortion.set_ph_thickness x sl =
        coerced_store x (fun v s =>
          {| SampleLayerDistortion._detector :=
               SampleLayerDistortion._detector s;
             SampleLayerDistortion._standoff :=
               SampleLayerDistortion._standoff s;
             SampleLayerDistortion._thickness :=
               SampleLayerDistortion._thickness s;
             SampleLayerDistortion._ph_thickness := PyFloat v;
             SampleLayerDistortion._source_dist :=
               SampleLayerDistortion._source_dist s |}) sl)
  /\ (SampleLayerDistortion.set_source_dist x sl =
        coerced_store x (fun v s =>
          {| SampleLayerDistortion._detector :=
               SampleLayerDistortion._detector s;
             SampleLayerDistortion._standoff :=
               SampleLayerDistortion._standoff s;
             SampleLayerDistortion._thickness :=
               SampleLayerDistortion._thickness s;
             SampleLayerDistortion._ph_thickness :=
               SampleLayerDistortion._ph_thickness s;
             SampleLayerDistortion._source_dist := PyFloat v |}) sl)
  /\ (PinholeDistortion.set_ph_thickness x ph =
        coerced_store x (fun v s =>
          {| PinholeDistortion._detector := PinholeDistortion._detector s;
             PinholeDistortion._ph_thickness := PyFloat v;
             PinholeDistortion._ph_radius :=
               PinholeDistortion._ph_radius s |}) ph)
  /\ (PinholeDistortion.set_ph_radius x ph =
        coerced_store x (fun v s =>
          {| PinholeDistortion._detector := PinholeDistortion._detector s;
             PinholeDistortion._ph_thickness :=
               PinholeDistortion._ph_thickness s;
             PinholeDistortion._ph_radius := PyFloat v |}) ph)
  /\ (forall f : F, py_float (PyFloat f) = Ok f)
  /\ (forall b : bool, py_float (PyBool b) = Ok (if b then fone else fzero))
  /\ (forall z : Z,
        py_float (PyInt z) =
        match float_of_int z with
        | Some f => Ok f
        | None => Raise OverflowError
        end)
  /\ (forall s : string,
        py_float (PyStr s) =
        match float_of_str s with
        | Some f => Ok f
        | None => Raise ValueError
        end)
  /\ py_float (PyNone : PyVal F) = Raise TypeError
  /\ (forall d : Detector F, py_float (PyDetector d) = Raise TypeError)
  /\ (forall cls : string,
        py_float (PyObject cls : PyVal F) = Raise TypeError).
Proof.
  repeat split;
    try (unfold SampleLayerDistortion.set_detector,
           PinholeDistortion.set_detector, py_assert, py_store;
         unfold mbind, Method_bind; by destruct (isinstance_detector x));
    unfold SampleLayerDistortion.set_standoff,
      SampleLayerDistortion.set_thickness,
      SampleLayerDistortion.set_ph_thickness,
      SampleLayerDistortion.set_source_dist,
      PinholeDistortion.set_ph_thickness, PinholeDistortion.set_ph_radius,
      coerced_store, py_eval, py_store;
    unfold mbind, Method_bind; by destruct (py_float x).
Qed.

(** C10: the constructors of both classes return an object for every five
    (three) Python values whatever their types, and the properties of that
    object read back the arguments as given; the same values handed to the
    setters are checked: a non-detector raises, a non-number raises. *)
Theorem constructors_store_unvalidated
    (detector a b c e : PyVal F) :
  (exists self,
     SampleLayerDistortion.__init__ detector a b c e = Ok self /\
     SampleLayerDistortion.detector self = detector /\
     SampleLayerDistortion.standoff self = a /\
     SampleLayerDistortion.thickness self = b /\
     SampleLayerDistortion.ph_thickness self = c /\
     SampleLayerDistortion.source_dist self = e /\
     (SampleLayerDistortion.set_detector detector self).1 =
       (if isinstance_detector detector then Ok tt
        else Raise AssertionError) /\
     (SampleLayerDistortion.set_standoff a self).1 =
       (py_float a ≫= fun _ => Ok tt))
  /\ (exists self,
        PinholeDistortion.__init__ detector a b = Ok self /\
        PinholeDistortion.detector self = detector /\
        PinholeDistortion.ph_thickness self = a /\
        PinholeDistortion.ph_radius self = b /\
        (PinholeDistortion.set_detector detector self).1 =
          (if isinstance_detector detector then Ok tt
           else Raise AssertionError) /\
        (PinholeDistortion.set_ph_thickness a self).1 =
          (py_float a ≫= fun _ => Ok tt)).
Proof.
  split; eexists; (split; [reflexivity|]); repeat split;
    try (unfold SampleLayerDistortion.set_detector,
           PinholeDistortion.set_detector, py_assert, py_store;
         unfold mbind, Method_bind; simpl;
         by destruct (isinstance_detector detector));
    unfold SampleLayerDistortion.set_standoff,
      PinholeDistortion.set_ph_thickness, py_eval, py_store;
    unfold mbind, Method_bind, result_bind; simpl; by destruct (py_float a).
Qed.
End Holders.

(** * Further properties of the evaluators *)

Section PointExtras.
Context {F : Type} `{Num F} `{Geom F}.
Local Open Scope num_scope.

(** The sample-layer point evaluator works row by row: the rows returned
    for a batch are the rows returned for each of its points evaluated
    alone, in order. *)
Theorem sample_layer_rowwise (d : Detector F) (xy : list (F * F))
    (standoff thickness ph sd : F) (return_nominal : bool) :
  tth_corr_sample_layer d xy standoff thickness ph sd return_nominal =
  concat ((fun p => tth_corr_sample_layer d [p] standoff thickness ph sd
                      return_nominal) <$> xy).
Proof.
  unfold tth_corr_sample_layer, sample_layer_tth_corr,
    sample_layer_denominator, sample_layer_cos_beta, unitRowVector, add_row,
    dot_rows, hstack_zeros, cart_to_angles, vstack2_T.
  destruct return_nominal; induction xy as [|p xy IH]; simpl; try done;
    f_equal; exact IH.
Qed.

(** The pinhole point evaluator works row by row as well, although it fills
    its array through an indexed loop: the rows returned for a batch are
    the rows returned for each of its points evaluated alone, in order. *)
Theorem pinhole_rowwise (d : Detector F) (xy : list (F * F)) (t r : F)
    (return_nominal : bool) :
  tth_corr_pinhole d xy t r return_nominal =
  concat ((fun p => tth_corr_pinhole d [p] t r return_nominal) <$> xy).
Proof.
  set (row := fun p =>
    if return_nominal
    then [(cart_to_angles_pt d p).1
            - (displaced_tth d p t r - (cart_to_angles_pt d p).1);
          (cart_to_angles_pt d p).2]
    else [- (displaced_tth d p t r - (cart_to_angles_pt d p).1);
          (cart_to_angles_pt d p).2]).
  assert (R : forall l, tth_corr_pinhole d l t r return_nominal = row <$> l).
  { intros l. unfold tth_corr_pinhole. rewrite pinhole_tth_corr_rows.
    unfold cart_to_angles, vstack2_T, row.
    destruct return_nominal; induction l as [|p l IH]; simpl; by f_equal. }
  rewrite R. induction xy as [|p xy IH]; [done|].
  cbn [fmap list_fmap concat]. rewrite R. cbn [fmap list_fmap app].
  f_equal. exact IH.
Qed.

(** The second column of either point evaluator is the detector's nominal
    azimuth of each point: it depends neither on the physical parameters,
    nor on [return_nominal], nor on which of the two models is
    evaluated. *)
Theorem eta_column_is_nominal (d : Detector F) (xy : list (F * F))
    (standoff thickness ph sd t r : F) (b1 b2 : bool) :
  column 1 (tth_corr_sample_layer d xy standoff thickness ph sd b1) =
    (cart_to_angles d xy).*2
  /\ column 1 (tth_corr_pinhole d xy t r b2) = (cart_to_angles d xy).*2.
Proof.
  pose proof (length_sample_layer_tth_corr d xy standoff thickness ph sd)
    as Es.
  pose proof (length_pinhole_tth_corr d xy t r) as Ep.
  pose proof (length_cart_to_angles d xy) as Ea.
  unfold tth_corr_sample_layer, tth_corr_pinhole.
  destruct b1, b2; split; apply column_1_vstack2_T;
    rewrite ?length_zip_with, ?length_fmap; lia.
Qed.

(** The sample-layer model sees the layer standoff, the layer thickness
    and the pinhole thickness only through
    [zs = standoff + 0.5*thickness + 0.5*pinhole_thickness]: two parameter
    sets with the same [zs] give the same point output and the same
    correction fields. *)
Theorem sample_layer_depends_on_zs (d : Detector F) (xy : list (F * F))
    (inst : Instrument F) (s1 t1 p1 s2 t2 p2 sd : F) (return_nominal : bool) :
  layer_zs s1 t1 p1 = layer_zs s2 t2 p2 ->
  tth_corr_sample_layer d xy s1 t1 p1 sd return_nominal =
    tth_corr_sample_layer d xy s2 t2 p2 sd return_nominal
  /\ tth_corr_map_sample_layer inst s1 t1 p1 =
     tth_corr_map_sample_layer inst s2 t2 p2.
Proof.
  intros E. unfold tth_corr_sample_layer, sample_layer_tth_corr,
    tth_corr_map_sample_layer. by rewrite E.
Qed.
End PointExtras.

Section MapExtras.
Context {F : Type} `{Num F} `{Geom F}.
Local Open Scope num_scope.

Lemma flatten_pixel_angles_tth_agree (d : Detector F) :
  grids_agree d ->
  flatten (pixel_angles d).1 =
  (fun p => (cart_to_angles_pt d p).1) <$> pixel_centers d.
Proof.
  unfold grids_agree, pixel_angles, pixel_centers.
  destruct (pixel_coords d) as [py px]; simpl. intros (s & Hy & Hx).
  rewrite flatten_zip_with by (eapply rows_agree; eauto).
  rewrite zip_with_flip. by apply fmap_pairs_ext.
Qed.

(** the loop body of the sample-layer map evaluator is the reshaping of the
    per-pixel closed form, whatever the detector's declared shape *)
Lemma map_sample_layer_body_reshape (inst : Instrument F)
    (standoff thickness ph : F) (d : Detector F) :
  grids_agree d ->
  map_sample_layer_body inst (layer_zs standoff thickness ph) d =
  reshape (shape d)
    ((fun p => closed_form_tth_corr d p standoff thickness ph
                 (source_distance inst)) <$> pixel_centers d).
Proof.
  intros Hg. pose proof (flatten_pixel_angles_tth_agree d Hg) as Ea.
  unfold map_sample_layer_body. rewrite Ea. clear Ea.
  unfold pixel_centers in *. destruct Hg as (s & Hy & Hx).
  destruct (pixel_coords d) as [py px]; simpl in *.
  rewrite map_lab_points
    by (by rewrite (length_flatten _ _ Hy), (length_flatten _ _ Hx)).
  unfold unitRowVector.
  set (l := zip (flatten px) (flatten py)) in *.
  f_equal. unfold closed_form_tth_corr, closed_form_cos_beta, layer_zs.
  induction l as [|p l IH]; simpl; by f_equal.
Qed.

(** a loop whose bodies return or raise [e], and one of which raises,
    raises [e] *)
Lemma for_detectors_raises (e : exn)
    (body : string -> Detector F -> result (grid F))
    (items : list (string * Detector F)) :
  (forall k d, (k, d) ∈ items ->
     body k d = Raise e \/ exists g, body k d = Ok g) ->
  (exists k d, (k, d) ∈ items /\ body k d = Raise e) ->
  forall acc, for_detectors body items acc = Raise e.
Proof.
  induction items as [|[k0 d0] rest IH]; intros Hall (k & d & Hin & Hr) acc.
  - by apply elem_of_nil in Hin.
  - simpl. destruct (Hall k0 d0) as [-> | (g & Eg)]; [left|done|].
    rewrite Eg. simpl. apply IH.
    + intros k' d' Hin'. apply Hall. by right.
    + apply elem_of_cons in Hin as [Heq|Hin].
      * inversion Heq; subst. congruence.
      * by exists k, d.
Qed.

(** When the two coordinate grids of every detector agree in shape, the
    sample-layer map evaluator reshapes each flat field to the detector's
    declared shape: it returns a field of that shape under every key if
    every detector has as many pixel centres as its shape has entries, and
    raises [ValueError] if some detector has not. *)
Theorem sample_layer_map_reshapes_or_raises (inst : Instrument F)
    (standoff thickness ph : F) :
  (forall k d, detectors inst !! k = Some d -> grids_agree d) ->
  ((forall k d, detectors inst !! k = Some d -> size_matches d) ->
   exists m,
     tth_corr_map_sample_layer inst standoff thickness ph = Ok m /\
     forall k d, detectors inst !! k = Some d ->
       exists g, m !! k = Some (Some g) /\ has_shape (shape d) g)
  /\ ((exists k d, detectors inst !! k = Some d /\ ~ size_matches d) ->
      tth_corr_map_sample_layer inst standoff thickness ph =
      Raise ValueError).
Proof.
  intros Hg. unfold tth_corr_map_sample_layer. split.
  - intros Hsz.
    destruct (for_detectors_dict (fun d g => has_shape (shape d) g)
                (fun _ det =>
                   map_sample_layer_body inst
                     (layer_zs standoff thickness ph) det)
                (detectors inst)) as (m & Em & _ & Hm).
    + intros k d Ek.
      rewrite map_sample_layer_body_reshape by eauto.
      pose proof (Hsz k d Ek) as Hs. unfold size_matches in Hs.
      rewrite reshape_Ok by (by rewrite length_fmap).
      eexists; split; [reflexivity|].
      destruct (shape d) as [n c]. apply has_shape_chunks.
      by rewrite length_fmap.
    + by exists m.
  - intros (k & d & Ek & Hs). apply for_detectors_raises.
    + intros k' d' Hin. apply elem_of_map_to_list in Hin.
      rewrite map_sample_layer_body_reshape by eauto.
      unfold reshape. destruct (decide _); eauto.
    + exists k, d. split; [by apply elem_of_map_to_list|].
      rewrite map_sample_layer_body_reshape by eauto.
      unfold reshape, size_matches in *. rewrite length_fmap.
      by rewrite decide_False.
Qed.

(** With [pinhole_radius = 0] every entry of every field returned by the
    pinhole map evaluator is zero (in exact arithmetic, for detectors that
    carry the instrument's beam and azimuth reference and whose nominal
    2-theta is that of the undisplaced ray). *)
Theorem pinhole_map_zero_radius `{!ExactLaws F} (inst : Instrument F)
    (t : F) :
  wf_instrument inst -> shares_beam inst ->
  (forall k d, detectors inst !! k = Some d ->
     Forall (nominal_is_undisplaced d) (pixel_centers d)) ->
  exists m,
    tth_corr_map_pinhole inst t fzero = Ok m /\
    forall k d, detectors inst !! k = Some d ->
      exists g, m !! k = Some (Some g) /\ has_shape (shape d) g /\
        Forall (fun v => v = fzero) (flatten g).
Proof.
  intros Hwf Hbeam Hnom.
  destruct (tth_corr_map_pinhole_entries inst t fzero Hwf)
    as (m & Em & _ & Hm).
  exists m. split; [exact Em|]. intros k d Ek.
  destruct (Hm k d Ek) as (g & Eg & Hs & Efl).
  destruct (Hbeam k d Ek) as [Eb Ee]. simpl in Eb, Ee.
  exists g. split; [exact Eg|]. split; [exact Hs|].
  rewrite Efl, <- Eb, <- Ee. clear Efl. pose proof (Hnom k d Ek) as Hn.
  induction Hn as [|p l Hp _ IH]; simpl; [constructor|].
  constructor; [|exact IH].
  unfold rim_origin. rewrite !fmul_opp_zero.
  change (V3 fzero fzero fzero) with (zeros_3 (F := F)).
  unfold nominal_is_undisplaced in Hp. rewrite <- Hp.
  apply fsub_diag.
Qed.
End MapExtras.

(** * Further properties of the parameter holders *)

Section HolderExtras.
Context {F : Type} `{Num F} `{PyRuntime F} `{Geom F}.

Ltac run_setters :=
  unfold SampleLayerDistortion.set_detector,
    SampleLayerDistortion.set_standoff, SampleLayerDistortion.set_thickness,
    SampleLayerDistortion.set_ph_thickness,
    SampleLayerDistortion.set_source_dist,
    PinholeDistortion.set_detector, PinholeDistortion.set_ph_thickness,
    PinholeDistortion.set_ph_radius, py_assert, py_eval, py_store;
  unfold mbind, Method_bind; simpl.

(** Assigning a property of [SampleLayerDistortion] twice with the same
    value is assigning it once, and assigning a property its own stored
    value after an assignment changes nothing: a failed assignment fails
    again with the object untouched, a successful one stored a float, which
    [float] maps to itself. *)
Theorem sample_layer_assignment_idempotent (x : PyVal F)
    (self : SampleLayerDistortion.t F) :
  (SampleLayerDistortion.set_detector x;;
     SampleLayerDistortion.set_detector x) self =
    SampleLayerDistortion.set_detector x self
  /\ (SampleLayerDistortion.set_standoff x;;
        ((fun s => SampleLayerDistortion.set_standoff
                    (SampleLayerDistortion.standoff s) s)
          : Method (SampleLayerDistortion.t F) unit)) self =
     SampleLayerDistortion.set_standoff x self
  /\ (SampleLayerDistortion.set_thickness x;;
        ((fun s => SampleLayerDistortion.set_thickness
                    (SampleLayerDistortion.thickness s) s)
          : Method (SampleLayerDistortion.t F) unit)) self =
     SampleLayerDistortion.set_thickness x self
  /\ (SampleLayerDistortion.set_ph_thickness x;;
        ((fun s => SampleLayerDistortion.set_ph_thickness
                    (SampleLayerDistortion.ph_thickness s) s)
          : Method (SampleLayerDistortion.t F) unit)) self =
     SampleLayerDistortion.set_ph_thickness x self
  /\ (SampleLayerDistortion.set_source_dist x;;
        ((fun s => SampleLayerDistortion.set_source_dist
                    (SampleLayerDistortion.source_dist s) s)
          : Method (SampleLayerDistortion.t F) unit)) self =
     SampleLayerDistortion.set_source_dist x self.
Proof.
  repeat split; run_setters;
    first [by destruct (isinstance_detector x) | by destruct (py_float x)].
Qed.

(** The same for [PinholeDistortion]. *)
Theorem pinhole_assignment_idempotent (x : PyVal F)
    (self : PinholeDistortion.t F) :
  (PinholeDistortion.set_detector x;;
     PinholeDistortion.set_detector x) self =
    PinholeDistortion.set_detector x self
  /\ (PinholeDistortion.set_ph_thickness x;;
        ((fun s => PinholeDistortion.set_ph_thickness
                    (PinholeDistortion.ph_thickness s) s)
          : Method (PinholeDistortion.t F) unit)) self =
     PinholeDistortion.set_ph_thickness x self
  /\ (PinholeDistortion.set_ph_radius x;;
        ((fun s => PinholeDistortion.set_ph_radius
                    (PinholeDistortion.ph_radius s) s)
          : Method (PinholeDistortion.t F) unit)) self =
     PinholeDistortion.set_ph_radius x self.
Proof.
  repeat split; run_setters;
    first [by destruct (isinstance_detector x) | by destruct (py_float x)].
Qed.


End HolderExtras.

(** ** Instances of the further properties *)

Section ExtraExamples.
Local Existing Instance R_camera.

Lemma one_panel_only {F : Type} `{Num F} (D : Detector F) (sd : F)
    (k : string) (d : Detector F) :
  detectors (one_panel D sd) !! k = Some d -> d = D.
Proof.
  unfold one_panel. simpl. intros E.
  apply lookup_singleton_Some in E as [_ E]. done.
Qed.

Lemma sample_layer_depends_on_zs_witness :
  (@layer_zs float binary64 1 2 0 = @layer_zs float binary64 2 0 0 /\
   @tth_corr_sample_layer float binary64 float_camera float_panel
     [(3, 0)] 1 2 0 1 true =
   @tth_corr_sample_layer float binary64 float_camera float_panel
     [(3, 0)] 2 0 0 1 true)%float.
Proof.
  split; [reflexivity|].
  exact (proj1 (@sample_layer_depends_on_zs float binary64 float_camera
                  float_panel [(3, 0)]
                  (one_panel float_panel 1)
                  1 2 0 2 0 0 1 true eq_refl))%float.
Defined.

Lemma sample_layer_map_reshapes_or_raises_witness :
  (forall k d, detectors (one_panel R_panel_mismatched 2%R) !! k = Some d ->
     grids_agree d) /\
  tth_corr_map_sample_layer (one_panel R_panel_mismatched 2%R) 1%R 0%R 0%R =
    Raise ValueError.
Proof.
  assert (Hg : forall k d,
    detectors (one_panel R_panel_mismatched 2%R) !! k = Some d ->
    grids_agree d).
  { intros k d E. apply one_panel_only in E as ->.
    exists (1, 1)%nat. split; (split; [reflexivity|by repeat constructor]). }
  split; [exact Hg|].
  apply (proj2 (@sample_layer_map_reshapes_or_raises R R_Num R_camera
                  (one_panel R_panel_mismatched 2%R) 1%R 0%R 0%R Hg)).
  exists "det"%string, R_panel_mismatched.
  split; [apply lookup_one_panel|]. unfold size_matches. simpl. lia.
Defined.

Lemma pinhole_map_zero_radius_witness :
  wf_instrument (one_panel R_panel 2%R) /\
  shares_beam (one_panel R_panel 2%R) /\
  exists m,
    tth_corr_map_pinhole (one_panel R_panel 2%R) 1%R 0%R = Ok m /\
    forall k d, detectors (one_panel R_panel 2%R) !! k = Some d ->
      exists g, m !! k = Some (Some g) /\ has_shape (shape d) g /\
        Forall (fun v => v = 0%R) (flatten g).
Proof.
  split; [exact (wf_one_panel R_panel 2%R wf_R_panel)|].
  split; [exact (shares_beam_one_panel R_panel 2%R)|].
  apply (@pinhole_map_zero_radius R R_Num R_camera R_ExactLaws
           (one_panel R_panel 2%R) 1%R
           (wf_one_panel R_panel 2%R wf_R_panel)
           (shares_beam_one_panel R_panel 2%R)).
  intros k d E. apply one_panel_only in E as ->.
  constructor; [reflexivity|constructor].
Defined.
End ExtraExamples.
